(** * Waartaa.in news narrator: audio pipeline and generation workflow

    A shallow embedding of the browser application:
    - [AudioUtils]: the PCM decoder and the WAV container encoder
      ([utils/audioUtils]);
    - [GeminiService]: script and speech generation on top of the remote
      model ([services/geminiService.ts]);
    - [App]: the generation workflow of the page ([App.tsx], [types.ts]).

    Bytes are [Byte.byte], header fields are written with coqutil's
    little-endian [le_split] and read back with [le_combine], channel data
    are lists updated in place (stdpp's [alter] and insert), samples are
    binary64 floats, thrown exceptions are the left summand of a sum. *)

From Stdlib Require Import ZArith QArith Qround Qminmax Floats Uint63 Lia Lqa.
From Stdlib Require Import Strings.String Strings.Ascii Strings.Byte List.
From Stdlib Require Import DecimalString.
From coqutil Require Import Byte Word.LittleEndianList.
From stdpp Require Import base list.
Import ListNotations.

Open Scope Z_scope.

(* ================================================================== *)
(** * utils/audioUtils *)
(* ================================================================== *)

Module AudioUtils.

(** ** PCM decoder *)

(** One element of the [Int16Array] view over the raw bytes: two bytes,
    low byte first, read as a two's-complement 16-bit integer. *)
Definition int16_of_le (lo hi : byte) : Z :=
  let u := le_combine [lo; hi] in
  if u <? 32768 then u else u - 65536.

(** Modelled from the spec: the 16-bit view of [decodeAudioData] (absent
    from the sources).  "Treat rawBytes as a tightly packed array of 16-bit
    little-endian signed integers.  Total sample count = byteLength / 2";
    a trailing odd byte is dropped ("the source silently drops trailing PCM
    bytes when length is not sample-aligned"). *)
Fixpoint int16View (rawBytes : list byte) : list Z :=
  match rawBytes with
  | lo :: hi :: rest => int16_of_le lo hi :: int16View rest
  | _ => []
  end.

(** The double nearest to an integer; exact below 2^53, which covers every
    16-bit sample. *)
Definition float_of_Z (z : Z) : float :=
  match z with
  | Z0 => PrimFloat.zero
  | Zpos _ => PrimFloat.of_uint63 (Uint63.of_Z z)
  | Zneg p => PrimFloat.opp (PrimFloat.of_uint63 (Uint63.of_Z (Zpos p)))
  end.

(** Modelled from the spec: the sample conversion of [decodeAudioData]
    (absent from the sources).  "Convert each raw 16-bit signed integer to a
    normalized float via division by 32768.0". *)
Definition normalizeSample (rawInt16 : Z) : float :=
  PrimFloat.div (float_of_Z rawInt16) 32768%float.

(** The exact rational value of a finite double ([None] for an infinity or
    a NaN). *)
Definition float_to_Q (f : float) : option Q :=
  match Prim2SF f with
  | S754_zero _ => Some (0 # 1)%Q
  | S754_finite s m e =>
      let n := if s then Zneg m else Zpos m in
      Some (match e with
            | Z0 => n # 1
            | Zpos k => (n * 2 ^ Zpos k) # 1
            | Zneg k => n # (2 ^ k)%positive
            end)%Q
  | S754_infinity _ | S754_nan => None
  end.

(** The platform's audio context, as far as the program configures it. *)
Record AudioContext := { ctxSampleRate : Z }.

(** The platform's audio buffer: one sample array per channel. *)
Record AudioBuffer := {
  bufSampleRate : Z;
  bufLength : nat;                      (* frames per channel *)
  bufChannelData : list (list float)
}.

Definition numberOfChannels (b : AudioBuffer) : nat :=
  length (bufChannelData b).

(** Modelled from the spec: the [duration] of the decoded buffer (the
    platform's buffer type is absent from the sources).  "its duration is
    frameCount / sampleRate", kept as the exact quotient. *)
Definition duration (b : AudioBuffer) : Q :=
  (inject_Z (Z.of_nat (bufLength b)) / inject_Z (bufSampleRate b))%Q.

(** Modelled from the spec: buffer allocation (absent from the sources).
    "Allocate an audio buffer of channelCount channels, each with
    frameCount samples, at sampleRate". *)
Definition createBuffer (ctx : AudioContext)
    (channelCount frameCount : nat) (sampleRate : Z) : AudioBuffer :=
  {| bufSampleRate := sampleRate;
     bufLength := frameCount;
     bufChannelData := replicate channelCount (replicate frameCount PrimFloat.zero) |}.

(** [channelData[channel][frame] = v]; a write outside the buffer leaves it
    unchanged. *)
Definition writeSample (chans : list (list float))
    (channel frame : nat) (v : float) : list (list float) :=
  alter (fun samples => <[frame := v]> samples) channel chans.

Definition readSample (chans : list (list float))
    (channel frame : nat) : option float :=
  match chans !! channel with
  | Some samples => samples !! frame
  | None => None
  end.

(** Modelled from the spec: the copy loop of [decodeAudioData] (absent from
    the sources).  "For each interleaved sample at position i, compute its
    destination channel as i % channelCount and destination frame as
    floor(i / channelCount)", convert it, and "write converted values into
    the corresponding channel's sample array at the corresponding frame
    index".  [i] is the position of the head of [samples]. *)
Fixpoint deinterleave (channelCount : nat) (i : nat) (samples : list Z)
    (chans : list (list float)) : list (list float) :=
  match samples with
  | [] => chans
  | x :: rest =>
      deinterleave channelCount (S i) rest
        (writeSample chans (i mod channelCount) (i / channelCount)%nat
           (normalizeSample x))
  end.

(** Modelled from the spec: [decodeAudioData(data, ctx, sampleRate,
    numChannels)] of utils/audioUtils (absent from the sources; the call is
    in services/geminiService.ts).  "Frame count = totalSampleCount /
    channelCount"; trailing samples that do not fill a frame are dropped. *)
Definition decodeAudioData (data : list byte) (ctx : AudioContext)
    (sampleRate : Z) (numChannels : nat) : AudioBuffer :=
  let dataInt16 := int16View data in
  let frameCount := (length dataInt16 / numChannels)%nat in
  let buffer := createBuffer ctx numChannels frameCount sampleRate in
  {| bufSampleRate := bufSampleRate buffer;
     bufLength := bufLength buffer;
     bufChannelData :=
       deinterleave numChannels 0 dataInt16 (bufChannelData buffer) |}.

(** Why the decoder fails. *)
Inductive DecodeError :=
| AllocationRefused.

(** Modelled from the spec: the decoder as its caller awaits it (absent from
    the sources).  The buffer of step 2 is the platform's to grant: "any
    failure (e.g., platform refuses to allocate the buffer) propagates
    directly to the caller as a fatal decode error".  [allocates channels
    frames rate] tells whether the platform grants a buffer of that shape;
    when it does, the decoder returns the buffer that [decodeAudioData]
    fills. *)
Definition awaitDecodeAudioData (allocates : nat -> nat -> Z -> bool)
    (data : list byte) (ctx : AudioContext)
    (sampleRate : Z) (numChannels : nat) : DecodeError + AudioBuffer :=
  let frameCount := (length (int16View data) / numChannels)%nat in
  if allocates numChannels frameCount sampleRate
  then inr (decodeAudioData data ctx sampleRate numChannels)
  else inl AllocationRefused.

(** ** Container encoder *)

(** A byte blob with its content type. *)
Record Blob := { blobBytes : list byte; blobType : string }.

(** [DataView.setUint32(_, v, true)] and [DataView.setUint16(_, v, true)]:
    the low 4 (2) bytes of [v], least significant first. *)
Definition setUint32 (v : Z) : list byte := le_split 4 v.
Definition setUint16 (v : Z) : list byte := le_split 2 v.

Definition getUint32 (offset : nat) (bs : list byte) : Z :=
  le_combine (take 4 (drop offset bs)).
Definition getUint16 (offset : nat) (bs : list byte) : Z :=
  le_combine (take 2 (drop offset bs)).

(** The encoder's fixed assumptions. *)
Definition wavChannelCount : Z := 1.
Definition wavBitsPerSample : Z := 16.

(** Modelled from the spec: the header written by [pcmToWav] (absent from
    the sources), in the canonical 44-byte layout: container magic, "total
    chunk size = 36 + data length (little-endian 32-bit)", the format tags,
    the format sub-chunk with "PCM format code (value 1), channel count,
    sample rate, byte rate (sampleRate * channelCount * bitsPerSample/8),
    block align (channelCount * bitsPerSample/8), bits per sample", then the
    "data sub-chunk tag followed by the data length (little-endian
    32-bit)". *)
Definition wavHeader (dataLength sampleRate : Z) : list byte :=
  list_byte_of_string "RIFF"
  ++ setUint32 (36 + dataLength)
  ++ list_byte_of_string "WAVE"
  ++ list_byte_of_string "fmt "
  ++ setUint32 16
  ++ setUint16 1
  ++ setUint16 wavChannelCount
  ++ setUint32 sampleRate
  ++ setUint32 (sampleRate * wavChannelCount * wavBitsPerSample / 8)
  ++ setUint16 (wavChannelCount * wavBitsPerSample / 8)
  ++ setUint16 wavBitsPerSample
  ++ list_byte_of_string "data"
  ++ setUint32 dataLength.

(** Modelled from the spec: [pcmToWav(rawPcm, sampleRate)] of
    utils/audioUtils (absent from the sources; the call is in App.tsx).
    The header is "followed immediately by rawPcmBytes", "the raw PCM
    bytes verbatim", and the blob is tagged with an audio MIME type. *)
Definition pcmToWav (pcmData : list byte) (sampleRate : Z) : Blob :=
  {| blobBytes := wavHeader (Z.of_nat (length pcmData)) sampleRate ++ pcmData;
     blobType := "audio/wav" |}.

Definition wavFormatCode (b : Blob) : Z := getUint16 20 (blobBytes b).
Definition wavChannels (b : Blob) : Z := getUint16 22 (blobBytes b).
Definition wavSampleRate (b : Blob) : Z := getUint32 24 (blobBytes b).
Definition wavData (b : Blob) : list byte := drop 44 (blobBytes b).

(** ** Test data and exhaustive checks *)


(** A platform that grants every buffer, and one that grants no buffer of
    zero frames. *)
Definition grantsAll : nat -> nat -> Z -> bool := fun _ _ _ => true.

(** [P] holds of the [n] integers from [lo] on. *)
Fixpoint forall_from (P : Z -> bool) (lo : Z) (n : nat) : bool :=
  match n with
  | O => true
  | S k => P lo && forall_from P (lo + 1) k
  end.

(** The normalized value of [x] is the double that is exactly [x / 32768],
    and it lies in [-1, 1). *)
Definition sampleInRange (x : Z) : bool :=
  match float_to_Q (normalizeSample x) with
  | Some q =>
      Qeq_bool q (x # 32768)
      && PrimFloat.leb (-1)%float (normalizeSample x)
      && PrimFloat.ltb (normalizeSample x) 1%float
  | None => false
  end.

End AudioUtils.

(* ================================================================== *)
(** * services/geminiService.ts *)
(* ================================================================== *)

Module GeminiService.
Import AudioUtils.

(** JavaScript truthiness of a string, and of a possibly undefined one. *)
Definition truthy (s : string) : bool :=
  match s with
  | EmptyString => false
  | String _ _ => true
  end.

Definition truthy_opt (s : option string) : bool :=
  match s with
  | Some t => truthy t
  | None => false
  end.

(** What the remote call rejects with (a network or service failure). *)
Record ApiFailure := { failureDetail : string }.

(** The values the service can throw, by throw site. *)
Inductive Exception :=
| RemoteRejection (f : ApiFailure)   (* [ai.models.generateContent] rejected *)
| Error (message : string)           (* [throw new Error(message)] *)
| InvalidCharacterError              (* [decode] of a payload that is not base64 *)
| PlatformError.                     (* no audio context, or no buffer, is granted *)

(** An awaited computation: the thrown value or the result. *)
Definition Promise (A : Type) : Type := (Exception + A)%type.

#[export] Instance Promise_ret : MRet Promise := fun _ x => inr x.
#[export] Instance Promise_bind : MBind Promise := fun _ _ k m =>
  match m with
  | inl e => inl e
  | inr x => k x
  end.

Definition throw {A : Type} (e : Exception) : Promise A := inl e.

(** ** The remote model *)

Inductive RequestConfig :=
| TextConfig (temperature topP : Q)
| AudioConfig (voiceName : string).

Record Request := {
  model : string;
  contents : string;
  config : RequestConfig
}.

(** The response, with every link of the optional chain that the service
    follows. *)
Record InlineData := { data : option string }.
Record Part := { inlineData : option InlineData }.
Record Content := { parts : option (list Part) }.
Record Candidate := { content : option Content }.
Record Response := {
  text : option string;
  candidates : option (list Candidate)
}.

(** [this.ai.models.generateContent]: an external collaborator. *)
Definition GenAI : Type := Request -> ApiFailure + Response.

Definition generateContent (ai : GenAI) (req : Request) : Promise Response :=
  match ai req with
  | inl f => throw (RemoteRejection f)
  | inr response => mret response
  end.

(** The platform functions the service relies on: [decode] of
    utils/audioUtils (base64 to bytes, absent from the sources; [None] when
    the string is not base64), whether an audio context can be created,
    [String.prototype.trim], and which audio buffers the platform grants
    (channels, frames, sample rate). *)
Record Platform := {
  decode : string -> option (list byte);
  audioContextAvailable : bool;
  trim : string -> string;
  allocatesBuffer : nat -> nat -> Z -> bool
}.

Definition newAudioContext (pf : Platform) (sampleRate : Z)
    : Promise AudioContext :=
  if audioContextAvailable pf
  then mret {| ctxSampleRate := sampleRate |}
  else throw PlatformError.

Record Voice := { id : string; name : string; description : string }.

Definition MARATHI_VOICES : list Voice :=
  [ {| id := "Kore"; name := "कोरे (गंभीर)"; description := "बातमीसाठी योग्य" |};
    {| id := "Puck"; name := "पक (उत्साही)"; description := "हलक्या बातम्यांसाठी" |};
    {| id := "Charon"; name := "कॅरॉन (शांत)"; description := "माहितीपर बातम्यांसाठी" |};
    {| id := "Fenrir"; name := "फेन्रिर (खोल)"; description := "महत्वाच्या घोषणांसाठी" |};
    {| id := "Zephyr"; name := "झेफिर (मैत्रीपूर्ण)"; description := "दैनंदिन अपडेट्ससाठी" |} ].

Record SpeechResult := {
  buffer : AudioBuffer;
  rawPcm : list byte
}.

(** ** generateNewsScript *)

Definition promptHead : string := "
तुम्ही एक अनुभवी न्यूज अँकर आहात. खाली दिलेल्या मजकुरावरून मराठीत स्पष्ट आणि समजणारी बातमी तयार करा.

सुरुवात साध्या आणि आपुलकीच्या intro ने करा:
“नमस्कार मंडळी. आपण ऐकत आहात Waartaa.in. चला, आजची महत्वाची बातमी ऐकूया.”

बातमी सोप्या शब्दांत समजावून सांगा.
अवघड शब्द टाळा.
तथ्यांवर बोला.
कोणताही पक्षपात किंवा वैयक्तिक मत देऊ नका.

जर बातमीत गावकऱ्यांसाठी उपयोगी माहिती असेल
तर ती शेवटी थोडक्यात समजवा.

शेवट साध्या outro ने करा:
“ही होती आजची बातमी. अजून माहिती आणि अपडेट्ससाठी Waartaa.in ऐकत रहा. पुन्हा भेटू.”

आवाज शांत, विश्वासार्ह आणि नैसर्गिक ठेवा.
कालावधी शक्य असेल तर 45 ते 75 सेकंदांच्या आत ठेवा.

बातमीचा मजकूर:
".

Definition promptTail : string := "
    ".

Definition scriptRequest (rawText : string) : Request :=
  {| model := "gemini-3-flash-preview";
     contents := promptHead ++ rawText ++ promptTail;
     config := TextConfig (7 # 10) (9 # 10) |}.

Definition scriptFallback : string :=
  "क्षमस्व, बातमी तयार करण्यात अडथळा आला.".

Definition generateNewsScript (ai : GenAI) (rawText : string)
    : Promise string :=
  response ← generateContent ai (scriptRequest rawText);
  mret (match text response with
        | Some t => if truthy t then t else scriptFallback
        | None => scriptFallback
        end).

(** ** generateSpeech *)

Definition speechRequest (text voice : string) : Request :=
  {| model := "gemini-2.5-flash-preview-tts";
     contents := text;
     config := AudioConfig voice |}.

(** [response.candidates?.[0]?.content?.parts?.[0]?.inlineData?.data] *)
Definition base64AudioOf (response : Response) : option string :=
  cs ← candidates response;
  c ← head cs;
  ct ← content c;
  ps ← parts ct;
  p ← head ps;
  i ← inlineData p;
  data i.

Definition noAudioMessage : string :=
  "No audio data received from Gemini API.".

Definition defaultVoice : string := "Kore".

Definition generateSpeech (ai : GenAI) (pf : Platform)
    (text : string) (voice : option string) : Promise SpeechResult :=
  response ← generateContent ai
               (speechRequest text (default defaultVoice voice));
  match base64AudioOf response with
  | Some base64Audio =>
      if truthy base64Audio then
        audioCtx ← newAudioContext pf 24000;
        audioData ← match decode pf base64Audio with
                    | Some bytes => mret bytes
                    | None => throw InvalidCharacterError
                    end;
        buffer ← match awaitDecodeAudioData (allocatesBuffer pf)
                         audioData audioCtx 24000 1 with
                 | inr buffer => mret buffer
                 | inl AllocationRefused => throw PlatformError
                 end;
        mret {| buffer := buffer; rawPcm := audioData |}
      else throw (Error noAudioMessage)
  | None => throw (Error noAudioMessage)
  end.

End GeminiService.

(* ================================================================== *)
(** * types.ts and App.tsx *)
(* ================================================================== *)

Module App.
Import AudioUtils GeminiService.

Inductive AppStatus :=
| IDLE
| GENERATING_SCRIPT
| GENERATING_AUDIO
| PLAYING
| ERROR.

Definition AppStatus_eqb (a b : AppStatus) : bool :=
  match a, b with
  | IDLE, IDLE | GENERATING_SCRIPT, GENERATING_SCRIPT
  | GENERATING_AUDIO, GENERATING_AUDIO | PLAYING, PLAYING | ERROR, ERROR => true
  | _, _ => false
  end.

(** The component's state hooks and the two refs that playback uses.  The
    progress polling ([startTimeRef], [animationFrameRef]) is left out: no
    statement below depends on it. *)
Record AppState := {
  inputText : string;
  generatedScript : string;
  selectedVoice : string;
  status : AppStatus;
  error : option string;
  audioBlob : option Blob;
  isPlaying : bool;
  currentTime : Q;
  duration : Q;
  audioContextRef : option AudioContext;
  sourceNodeRef : option AudioBuffer
}.

Definition initialState : AppState :=
  {| inputText := "";
     generatedScript := "";
     selectedVoice := match MARATHI_VOICES with
                      | v :: _ => id v
                      | [] => ""
                      end;
     status := IDLE;
     error := None;
     audioBlob := None;
     isPlaying := false;
     currentTime := 0;
     duration := 0;
     audioContextRef := None;
     sourceNodeRef := None |}.

(** The state setters. *)
Definition setInputText (v : string) (s : AppState) : AppState :=
  {| inputText := v; generatedScript := generatedScript s;
     selectedVoice := selectedVoice s; status := status s; error := error s;
     audioBlob := audioBlob s; isPlaying := isPlaying s;
     currentTime := currentTime s; duration := duration s;
     audioContextRef := audioContextRef s; sourceNodeRef := sourceNodeRef s |}.

Definition setGeneratedScript (v : string) (s : AppState) : AppState :=
  {| inputText := inputText s; generatedScript := v;
     selectedVoice := selectedVoice s; status := status s; error := error s;
     audioBlob := audioBlob s; isPlaying := isPlaying s;
     currentTime := currentTime s; duration := duration s;
     audioContextRef := audioContextRef s; sourceNodeRef := sourceNodeRef s |}.

Definition setSelectedVoice (v : string) (s : AppState) : AppState :=
  {| inputText := inputText s; generatedScript := generatedScript s;
     selectedVoice := v; status := status s; error := error s;
     audioBlob := audioBlob s; isPlaying := isPlaying s;
     currentTime := currentTime s; duration := duration s;
     audioContextRef := audioContextRef s; sourceNodeRef := sourceNodeRef s |}.

Definition setStatus (v : AppStatus) (s : AppState) : AppState :=
  {| inputText := inputText s; generatedScript := generatedScript s;
     selectedVoice := selectedVoice s; status := v; error := error s;
     audioBlob := audioBlob s; isPlaying := isPlaying s;
     currentTime := currentTime s; duration := duration s;
     audioContextRef := audioContextRef s; sourceNodeRef := sourceNodeRef s |}.

Definition setError (v : option string) (s : AppState) : AppState :=
  {| inputText := inputText s; generatedScript := generatedScript s;
     selectedVoice := selectedVoice s; status := status s; error := v;
     audioBlob := audioBlob s; isPlaying := isPlaying s;
     currentTime := currentTime s; duration := duration s;
     audioContextRef := audioContextRef s; sourceNodeRef := sourceNodeRef s |}.

Definition setAudioBlob (v : option Blob) (s : AppState) : AppState :=
  {| inputText := inputText s; generatedScript := generatedScript s;
     selectedVoice := selectedVoice s; status := status s; error := error s;
     audioBlob := v; isPlaying := isPlaying s;
     currentTime := currentTime s; duration := duration s;
     audioContextRef := audioContextRef s; sourceNodeRef := sourceNodeRef s |}.

Definition setIsPlaying (v : bool) (s : AppState) : AppState :=
  {| inputText := inputText s; generatedScript := generatedScript s;
     selectedVoice := selectedVoice s; status := status s; error := error s;
     audioBlob := audioBlob s; isPlaying := v;
     currentTime := currentTime s; duration := duration s;
     audioContextRef := audioContextRef s; sourceNodeRef := sourceNodeRef s |}.

Definition setCurrentTime (v : Q) (s : AppState) : AppState :=
  {| inputText := inputText s; generatedScript := generatedScript s;
     selectedVoice := selectedVoice s; status := status s; error := error s;
     audioBlob := audioBlob s; isPlaying := isPlaying s;
     currentTime := v; duration := duration s;
     audioContextRef := audioContextRef s; sourceNodeRef := sourceNodeRef s |}.

Definition setDuration (v : Q) (s : AppState) : AppState :=
  {| inputText := inputText s; generatedScript := generatedScript s;
     selectedVoice := selectedVoice s; status := status s; error := error s;
     audioBlob := audioBlob s; isPlaying := isPlaying s;
     currentTime := currentTime s; duration := v;
     audioContextRef := audioContextRef s; sourceNodeRef := sourceNodeRef s |}.

Definition setAudioContextRef (v : option AudioContext) (s : AppState)
    : AppState :=
  {| inputText := inputText s; generatedScript := generatedScript s;
     selectedVoice := selectedVoice s; status := status s; error := error s;
     audioBlob := audioBlob s; isPlaying := isPlaying s;
     currentTime := currentTime s; duration := duration s;
     audioContextRef := v; sourceNodeRef := sourceNodeRef s |}.

Definition setSourceNodeRef (v : option AudioBuffer) (s : AppState)
    : AppState :=
  {| inputText := inputText s; generatedScript := generatedScript s;
     selectedVoice := selectedVoice s; status := status s; error := error s;
     audioBlob := audioBlob s; isPlaying := isPlaying s;
     currentTime := currentTime s; duration := duration s;
     audioContextRef := audioContextRef s; sourceNodeRef := v |}.

(** ** Playback *)

Definition stopAudio (s : AppState) : AppState :=
  setIsPlaying false (setSourceNodeRef None s).

(** [playAudio]: the state it leaves, and the exception when the audio
    context cannot be created. *)
Definition playAudio (pf : Platform) (buffer : AudioBuffer) (s : AppState)
    : AppState * option Exception :=
  let s := stopAudio s in
  let ctx := match audioContextRef s with
             | Some ctx => mret ctx
             | None => newAudioContext pf 24000
             end in
  match ctx with
  | inl e => (s, Some e)
  | inr ctx =>
      let s := setAudioContextRef (Some ctx) s in
      let s := setDuration (AudioUtils.duration buffer) s in
      let s := setCurrentTime 0 s in
      let s := setSourceNodeRef (Some buffer) s in
      let s := setIsPlaying true s in
      (setStatus PLAYING s, None)
  end.

(** [source.onended] *)
Definition onEnded (buffer : AudioBuffer) (s : AppState) : AppState :=
  setStatus IDLE
    (setCurrentTime (AudioUtils.duration buffer) (setIsPlaying false s)).

(** ** The generation workflow *)

Definition emptyInputMessage : string := "कृपया बातमीचा मजकूर टाका.".

Definition genericFailureMessage : string :=
  "काहीतरी चूक झाली. कृपया पुन्हा प्रयत्न करा.".

(** The [catch] block of [handleGenerate]; the caught value goes to the
    console only. *)
Definition catchBlock (err : Exception) (s : AppState) : AppState :=
  setStatus ERROR (setError (Some genericFailureMessage) s).

(** [handleGenerate]: the state once the asynchronous handler has settled.
    The two awaits are sequenced: the speech request is made only after the
    script has arrived. *)
Definition handleGenerate (ai : GenAI) (pf : Platform) (s : AppState)
    : AppState :=
  if negb (truthy (trim pf (inputText s))) then
    setError (Some emptyInputMessage) s
  else
    let input := inputText s in
    let voice := selectedVoice s in
    let s := setError None s in
    let s := setAudioBlob None s in
    let s := setGeneratedScript "" s in
    let s := setStatus GENERATING_SCRIPT s in
    match generateNewsScript ai input with
    | inl err => catchBlock err s
    | inr script =>
        let s := setGeneratedScript script s in
        let s := setStatus GENERATING_AUDIO s in
        match generateSpeech ai pf script (Some voice) with
        | inl err => catchBlock err s
        | inr result =>
            let wav := pcmToWav (rawPcm result) 24000 in
            let s := setAudioBlob (Some wav) s in
            match playAudio pf (buffer result) s with
            | (s, None) => s
            | (s, Some err) => catchBlock err s
            end
        end
    end.

(** The state rendered while the script request is in flight, and while
    the speech request is in flight. *)
Definition afterScriptStart (s : AppState) : AppState :=
  setStatus GENERATING_SCRIPT
    (setGeneratedScript "" (setAudioBlob None (setError None s))).

Definition afterScript (script : string) (s : AppState) : AppState :=
  setStatus GENERATING_AUDIO (setGeneratedScript script (afterScriptStart s)).

Definition handleReset (s : AppState) : AppState :=
  let s := stopAudio s in
  let s := setInputText "" s in
  let s := setGeneratedScript "" s in
  let s := setAudioBlob None s in
  let s := setCurrentTime 0 s in
  let s := setDuration 0 s in
  let s := setStatus IDLE s in
  setError None s.

(** ** What the page renders from [status] *)

(** [status !== AppStatus.IDLE && status !== AppStatus.ERROR]: the textarea
    and the voice buttons are disabled, the main button is greyed. *)
Definition busy (s : AppState) : bool :=
  negb (AppStatus_eqb (status s) IDLE) && negb (AppStatus_eqb (status s) ERROR).

(** The [disabled] attribute of the generate button. *)
Definition generateDisabled (pf : Platform) (s : AppState) : bool :=
  busy s || negb (truthy (trim pf (inputText s))).

Definition showSpinner (s : AppState) : bool :=
  AppStatus_eqb (status s) GENERATING_SCRIPT
  || AppStatus_eqb (status s) GENERATING_AUDIO.



End App.

(* ================================================================== *)
(** * Canned collaborators *)
(* ================================================================== *)

(** Fake implementations of the remote model and of the platform, to run
    the workflow on. *)
Module Fixtures.
Import AudioUtils GeminiService App.

(** The samples -32768 and 32767, low byte first. *)
Definition twoSamples : list byte := [x00; x80; xff; x7f].

Definition fakePlatform : Platform :=
  {| decode := fun _ => Some twoSamples;
     audioContextAvailable := true;
     trim := fun t => t;
     allocatesBuffer := grantsAll |}.

Definition cannedResponse : Response :=
  {| text := Some "नमस्कार मंडळी."%string;
     candidates :=
       Some [ {| content :=
                   Some {| parts :=
                             Some [ {| inlineData :=
                                         Some {| data := Some "AID/fw=="%string |} |} ] |} |} ] |}.

(** Every request succeeds. *)
Definition cannedAI : GenAI := fun _ => inr cannedResponse.

(** Every request is rejected. *)
Definition unreachableAI : GenAI :=
  fun _ => inl {| failureDetail := "fetch failed" |}.

(** Every request succeeds with an empty response. *)
Definition blankAI : GenAI :=
  fun _ => inr {| text := None; candidates := None |}.

(** The page after the user has typed [t]. *)
Definition typed (t : string) : AppState := setInputText t initialState.

End Fixtures.

(* ================================================================== *)
(** * App.tsx: time display and progress polling *)
(* ================================================================== *)

Module Clock.
Import AudioUtils GeminiService App.

(** The value [Math.floor] returns, as far as printing it goes. *)
Inductive JsNumber :=
| JsInt (z : Z)
| JsInfinity (negative : bool)
| JsNaN.

(** The number a double stands for. *)
Inductive JsValue :=
| Finite (q : Q)
| Infinite (negative : bool)
| NaN.

Definition valueOf (x : float) : JsValue :=
  match float_to_Q x with
  | Some q => Finite q
  | None =>
      match Prim2SF x with
      | S754_infinity s => Infinite s
      | _ => NaN
      end
  end.

Definition Math_floor (v : JsValue) : JsNumber :=
  match v with
  | Finite q => JsInt (Qfloor q)
  | Infinite s => JsInfinity s
  | NaN => JsNaN
  end.

(** Rounding towards zero. *)
Definition Qtrunc (q : Q) : Z :=
  if Qle_bool 0 q then Qfloor q else Qceiling q.

(** The [%] operator: the remainder has the sign of the dividend and is
    computed without rounding. *)
Definition remainder (x y : JsValue) : JsValue :=
  match x, y with
  | Finite a, Finite b =>
      if Qeq_bool b 0 then NaN
      else Finite (a - b * inject_Z (Qtrunc (a / b)))
  | Finite a, Infinite _ => Finite a
  | _, _ => NaN
  end.

(** [Number.prototype.toString] on the results of [Math.floor].  An integer
    is printed digit for digit up to 2^53; beyond that the platform prints
    the shortest digits that read back as the same double (and an exponent
    from 10^21 on), which is not modelled: [None]. *)
Definition toString (n : JsNumber) : option string :=
  match n with
  | JsInt z =>
      if Z.abs z <=? 2 ^ 53
      then Some (NilZero.string_of_int (Z.to_int z))
      else None
  | JsInfinity false => Some "Infinity"%string
  | JsInfinity true => Some "-Infinity"%string
  | JsNaN => Some "NaN"%string
  end.

(** [n] copies of the padding, cut to [len] characters. *)
Fixpoint padding (fuel len : nat) (pad : string) : string :=
  match fuel with
  | O => ""%string
  | S k =>
      if (len <=? String.length pad)%nat then substring 0 len pad
      else (pad ++ padding k (len - String.length pad) pad)%string
  end.

(** [String.prototype.padStart] *)
Definition padStart (targetLength : nat) (padString : string) (s : string)
    : string :=
  if (targetLength <=? String.length s)%nat then s
  else
    match padString with
    | EmptyString => s
    | _ =>
        let fill := (targetLength - String.length s)%nat in
        (padding fill fill padString ++ s)%string
    end.

(** [formatTime(seconds)] *)
Definition formatTime (seconds : float) : option string :=
  let mins := Math_floor (valueOf (PrimFloat.div seconds 60%float)) in
  let secs := Math_floor (remainder (valueOf seconds) (Finite 60)) in
  match toString mins, toString secs with
  | Some m, Some sec => Some (m ++ ":" ++ padStart 2 "0" sec)%string
  | _, _ => None
  end.

(** The two characters that print a number below 100. *)
Definition twoDigits (n : Z) : string :=
  String (ascii_of_nat (48 + Z.to_nat (n / 10)))
    (String (ascii_of_nat (48 + Z.to_nat (n mod 10))) EmptyString).

(** Padding the printed [r] gives its two digits. *)
Definition padsToTwoDigits (r : Z) : bool :=
  match toString (JsInt r) with
  | Some str => String.eqb (padStart 2 "0" str) (twoDigits r)
  | None => false
  end.

(** [formatTime] prints [n] whole seconds as minutes, a colon and two
    digits. *)
Definition formatsWholeSeconds (n : Z) : bool :=
  match formatTime (float_of_Z n) with
  | Some str =>
      String.eqb str
        (NilZero.string_of_int (Z.to_int (n / 60)) ++ ":"
         ++ twoDigits (n mod 60))%string
  | None => false
  end.

(** [updateProgress], run at the animation frame at which the audio clock
    reads [elapsed] seconds past the start of playback: the new state, and
    whether another frame is requested. *)
Definition updateProgress (elapsed : Q) (s : AppState) : AppState * bool :=
  match audioContextRef s with
  | Some _ =>
      if isPlaying s then
        (setCurrentTime (Qminmax.Qmin elapsed (App.duration s)) s,
         if Qlt_le_dec elapsed (App.duration s) then true else false)
      else (s, false)
  | None => (s, false)
  end.

End Clock.

(* ================================================================== *)
(** * App.tsx: download and share *)
(* ================================================================== *)

Module Sharing.
Import AudioUtils GeminiService App.

(** What [downloadAudio] does to the page. *)
Inductive DomEffect :=
| CreateObjectURL (b : Blob)
| AppendAnchor (href download : string)
| ClickAnchor (href download : string)
| RemoveAnchor (href download : string)
| RevokeObjectURL (url : string).

Definition wavFileName (now : Z) : string :=
  ("waartaa_news_" ++ NilZero.string_of_int (Z.to_int now) ++ ".wav")%string.

(** [downloadAudio], at time [Date.now() = now], in a browser that names
    object URLs by [objectURL]. *)
Definition downloadAudio (objectURL : Blob -> string) (now : Z)
    (s : AppState) : list DomEffect :=
  match audioBlob s with
  | None => []
  | Some blob =>
      let url := objectURL blob in
      let download := wavFileName now in
      [ CreateObjectURL blob;
        AppendAnchor url download;
        ClickAnchor url download;
        RemoveAnchor url download;
        RevokeObjectURL url ]
  end.

Record File := {
  fileBits : Blob;
  fileName : string;
  fileType : string
}.

Record ShareData := {
  shareTitle : option string;
  shareText : option string;
  shareFiles : list File
}.

(** The browser's sharing functions: [navigator.canShare] and
    [navigator.share] where the browser has them ([share] tells whether the
    promise resolves), and [encodeURIComponent]. *)
Record Navigator := {
  canShare : option (ShareData -> bool);
  share : option (ShareData -> bool);
  encodeURIComponent : string -> string
}.

Inductive ShareEffect :=
| ShareCall (d : ShareData)
| WindowOpen (url target : string)
| ConsoleError (message : string).

(** The [try] around a call of [navigator.share]: the effects, and whether
    the call resolved.  Calling a missing [navigator.share] throws, which
    the [catch] logs like a rejection. *)
Definition tryShare (nav : Navigator) (d : ShareData) (onFailure : string)
    : list ShareEffect * bool :=
  match share nav with
  | Some sh =>
      if sh d then ([ShareCall d], true)
      else ([ShareCall d; ConsoleError onFailure], false)
  | None => ([ConsoleError onFailure], false)
  end.

(** [handleShare], at time [Date.now() = now]: the effects in order. *)
Definition handleShare (nav : Navigator) (now : Z) (s : AppState)
    : list ShareEffect :=
  if negb (truthy (generatedScript s)) then []
  else
    let shareData :=
      {| shareTitle := Some "Waartaa.in News"%string;
         shareText := Some (generatedScript s);
         shareFiles := [] |} in
    let canShareFile (blob : Blob) : bool :=
      match canShare nav with
      | Some can =>
          can {| shareTitle := None; shareText := None;
                 shareFiles := [ {| fileBits := blob;
                                    fileName := "news.wav";
                                    fileType := "audio/wav" |} ] |}
      | None => false
      end in
    let fileAttempt : list ShareEffect * bool :=
      match audioBlob s with
      | Some blob =>
          if canShareFile blob then
            let file := {| fileBits := blob;
                           fileName := wavFileName now;
                           fileType := "audio/wav" |} in
            tryShare nav
              {| shareTitle := shareTitle shareData;
                 shareText := shareText shareData;
                 shareFiles := [file] |}
              "File share failed, falling back to text share"
          else ([], false)
      | None => ([], false)
      end in
    let '(effects, returned) := fileAttempt in
    if returned then effects
    else
      match share nav with
      | Some _ => effects ++ fst (tryShare nav shareData "Text share failed")
      | None =>
          effects
          ++ [ WindowOpen
                 ("https://wa.me/?text="
                  ++ encodeURIComponent nav (generatedScript s))%string
                 "_blank" ]
      end.

Definition isShareCall (e : ShareEffect) : bool :=
  match e with
  | ShareCall _ => true
  | _ => false
  end.

Definition isWindowOpen (e : ShareEffect) : bool :=
  match e with
  | WindowOpen _ _ => true
  | _ => false
  end.

End Sharing.

(* ================================================================== *)
(** * App.tsx: the page as a state machine *)
(* ================================================================== *)

Module Session.
Import AudioUtils GeminiService App.

(** The handlers the page can run.  Each one is run to completion before
    the next event. *)
Inductive Event :=
| ChangeInput (value : string)     (* the textarea's [onChange] *)
| SelectVoice (voice : string)     (* the button of a voice of the list *)
| Generate (ai : GenAI)            (* the generate button, against a service *)
| Stop                             (* the stop button *)
| Reset                            (* the reset button *)
| Ended (buffer : AudioBuffer).    (* [source.onended], whenever it fires *)

Definition knownVoice (voice : string) : bool :=
  existsb (fun v => String.eqb voice (id v)) MARATHI_VOICES.

(** Whether the render of [s] offers the event: the [disabled] attributes
    and the conditional rendering of the buttons. *)
Definition enabled (pf : Platform) (s : AppState) (e : Event) : bool :=
  match e with
  | ChangeInput _ => negb (busy s)
  | SelectVoice voice => negb (busy s) && knownVoice voice
  | Generate _ => negb (generateDisabled pf s)
  | Stop => truthy (generatedScript s) && isPlaying s
  | Reset => truthy (generatedScript s) || truthy (inputText s)
  | Ended _ => true
  end.

Definition step (pf : Platform) (e : Event) (s : AppState) : AppState :=
  match e with
  | ChangeInput value => setInputText value s
  | SelectVoice voice => setSelectedVoice voice s
  | Generate ai => handleGenerate ai pf s
  | Stop => stopAudio s
  | Reset => handleReset s
  | Ended buffer => onEnded buffer s
  end.

(** The states the page can be in between two events. *)
Inductive reachable (pf : Platform) : AppState -> Prop :=
| reachable_initial : reachable pf initialState
| reachable_step s e :
    reachable pf s -> enabled pf s e = true -> reachable pf (step pf e s).

(** What holds of the page between two events. *)
Record settled (s : AppState) : Prop := {
  settled_not_generating : showSpinner s = false;
  settled_playing :
    isPlaying s = true ->
    status s = PLAYING /\ sourceNodeRef s <> None /\ audioContextRef s <> None;
  settled_blob : audioBlob s <> None -> truthy (generatedScript s) = true;
  settled_playing_blob : status s = PLAYING -> audioBlob s <> None;
  settled_error : status s = ERROR -> error s = Some genericFailureMessage;
  settled_message : error s = None \/ error s = Some genericFailureMessage;
  settled_voice : knownVoice (selectedVoice s) = true
}.

(** The page runs a list of events, skipping those it does not offer. *)
Fixpoint run (pf : Platform) (events : list Event) (s : AppState)
    : AppState :=
  match events with
  | [] => s
  | e :: rest =>
      run pf rest (if enabled pf s e then step pf e s else s)
  end.

End Session.

(** More canned collaborators: a browser that shares text only, and the
    page showing a script. *)
Module Browsers.
Import AudioUtils GeminiService App Sharing.

Definition textNavigator : Navigator :=
  {| canShare := None;
     share := Some (fun _ => true);
     encodeURIComponent := fun t => t |}.

Definition scripted : AppState :=
  setGeneratedScript "नमस्कार मंडळी." initialState.

End Browsers.

(* ================================================================== *)
(** * The model at work *)
(* ================================================================== *)

Section Runs.
Import AudioUtils GeminiService App Fixtures.

Example int16View_twoSamples : int16View twoSamples = [-32768; 32767].
Proof. reflexivity. Qed.

Example int16View_odd : int16View [x01; x00; x02] = [1].
Proof. reflexivity. Qed.

Example decode_mono :
  bufChannelData
    (decodeAudioData twoSamples {| ctxSampleRate := 24000 |} 24000 1)
  = [[(-1)%float; 0x1.fffcp-1%float]].
Proof. reflexivity. Qed.

Example decode_stereo :
  bufChannelData
    (decodeAudioData twoSamples {| ctxSampleRate := 24000 |} 24000 2)
  = [[(-1)%float]; [0x1.fffcp-1%float]].
Proof. reflexivity. Qed.

Example wavHeader_24k :
  wavHeader 4 24000
  = list_byte_of_string "RIFF" ++ [x28; x00; x00; x00]
    ++ list_byte_of_string "WAVEfmt " ++ [x10; x00; x00; x00]
    ++ [x01; x00] ++ [x01; x00]
    ++ [xc0; x5d; x00; x00] ++ [x80; xbb; x00; x00]
    ++ [x02; x00] ++ [x10; x00]
    ++ list_byte_of_string "data" ++ [x04; x00; x00; x00].
Proof. reflexivity. Qed.

Example base64AudioOf_canned :
  base64AudioOf cannedResponse = Some "AID/fw=="%string.
Proof. reflexivity. Qed.

Example generate_plays :
  status (handleGenerate cannedAI fakePlatform (typed "पाऊस")) = PLAYING
  /\ isPlaying (handleGenerate cannedAI fakePlatform (typed "पाऊस")) = true.
Proof. split; reflexivity. Qed.

Example generate_blank_input :
  handleGenerate cannedAI fakePlatform (typed "")
  = setError (Some emptyInputMessage) (typed "").
Proof. reflexivity. Qed.

Example generate_without_audio :
  status (handleGenerate blankAI fakePlatform (typed "पाऊस")) = ERROR
  /\ generatedScript (handleGenerate blankAI fakePlatform (typed "पाऊस"))
     = scriptFallback.
Proof. split; reflexivity. Qed.

End Runs.

(* ================================================================== *)
(** * Container encoder: the header round trip *)
(* ================================================================== *)

Section ContainerEncoder.
Import AudioUtils Fixtures.

Lemma wavHeader_length d sr : length (wavHeader d sr) = 44%nat.
Proof. reflexivity. Qed.

Lemma le_combine_setUint32 v : le_combine (setUint32 v) = v mod 2 ^ 32.
Proof. unfold setUint32. rewrite le_combine_split. reflexivity. Qed.

Lemma le_combine_setUint16 v : le_combine (setUint16 v) = v mod 2 ^ 16.
Proof. unfold setUint16. rewrite le_combine_split. reflexivity. Qed.

(** A field is read back from the bytes that were written at its offset. *)
Ltac read_field off w field :=
  match goal with
  | |- context [take ?n (drop off (wavHeader ?d ?sr ++ ?pcm))] =>
      change (take n (drop off (wavHeader d sr ++ pcm)))
        with (take n (field ++ drop (off + w) (wavHeader d sr ++ pcm)));
      rewrite take_app_length' by reflexivity
  end.


Lemma wavChannels_pcmToWav pcm sr : wavChannels (pcmToWav pcm sr) = 1.
Proof.
  unfold wavChannels, getUint16, pcmToWav, blobBytes.
  read_field 22%nat 2%nat (setUint16 wavChannelCount).
  reflexivity.
Qed.

Lemma wavSampleRate_pcmToWav pcm sr :
  wavSampleRate (pcmToWav pcm sr) = sr mod 2 ^ 32.
Proof.
  unfold wavSampleRate, getUint32, pcmToWav, blobBytes.
  read_field 24%nat 4%nat (setUint32 sr).
  apply le_combine_setUint32.
Qed.





Lemma wavData_pcmToWav pcm sr : wavData (pcmToWav pcm sr) = pcm.
Proof.
  unfold wavData, pcmToWav, blobBytes.
  apply drop_app_length'. reflexivity.
Qed.












End ContainerEncoder.

(* ================================================================== *)
(** * PCM decoder: routing of the interleaved samples *)
(* ================================================================== *)

Section PcmDecoder.
Import AudioUtils Fixtures.
Open Scope nat_scope.

Lemma int16View_length_step (b : list byte) :
  length (int16View b) = length b / 2
  /\ forall x, length (int16View (x :: b)) = S (length b) / 2.
Proof.
  induction b as [|y b [IH1 IH2]].
  - split; [reflexivity | intros x; reflexivity].
  - split; [apply IH2 | ].
    intros x. cbn [int16View length]. rewrite IH1.
    change (S (S (length b))) with (2 + length b).
    replace (2 + length b) with (length b + 1 * 2) by lia.
    rewrite Nat.div_add by lia. lia.
Qed.

Lemma int16View_length (b : list byte) :
  length (int16View b) = length b / 2.
Proof. apply int16View_length_step. Qed.

Lemma int16View_lookup (b : list byte) (i : nat) (lo hi : byte) :
  b !! (2 * i) = Some lo -> b !! (2 * i + 1) = Some hi ->
  int16View b !! i = Some (int16_of_le lo hi).
Proof.
  revert b. induction i as [|i IH]; intros [|x [|y b]] Hlo Hhi;
    try discriminate.
  - cbn in Hlo, Hhi. injection Hlo as ->. injection Hhi as ->. reflexivity.
  - replace (2 * S i) with (S (S (2 * i))) in Hlo by lia.
    replace (2 * S i + 1) with (S (S (2 * i + 1))) in Hhi by lia.
    cbn [int16View]. change (int16View b !! i = Some (int16_of_le lo hi)).
    apply IH; assumption.
Qed.

Lemma writeSample_shape chans ch fr v :
  length <$> writeSample chans ch fr v = length <$> chans.
Proof.
  unfold writeSample. revert ch.
  induction chans as [|c chans IH]; intros [|ch]; cbn; try reflexivity.
  - rewrite length_insert. reflexivity.
  - f_equal. apply IH.
Qed.

Lemma deinterleave_shape c xs i chans :
  length <$> deinterleave c i xs chans = length <$> chans.
Proof.
  revert i chans. induction xs as [|x xs IH]; intros i chans; cbn.
  - reflexivity.
  - rewrite IH. apply writeSample_shape.
Qed.

Lemma readSample_writeSample_eq chans ch fr v :
  is_Some (readSample chans ch fr) ->
  readSample (writeSample chans ch fr v) ch fr = Some v.
Proof.
  unfold readSample, writeSample. intros [w Hw].
  rewrite list_lookup_alter. destruct (decide (ch = ch)) as [_|]; [|congruence].
  destruct (chans !! ch) as [samples|] eqn:E; [|discriminate]. cbn.
  apply list_lookup_insert_eq. apply lookup_lt_Some in Hw. exact Hw.
Qed.

Lemma readSample_writeSample_ne chans ch fr ch' fr' v :
  (ch, fr) <> (ch', fr') ->
  readSample (writeSample chans ch fr v) ch' fr' = readSample chans ch' fr'.
Proof.
  unfold readSample, writeSample. intros Hne.
  rewrite list_lookup_alter. destruct (decide (ch = ch')) as [<-|]; [|reflexivity].
  destruct (chans !! ch) as [samples|]; [|reflexivity]. cbn.
  apply list_lookup_insert_ne. congruence.
Qed.

Lemma position_cell c i j :
  0 < c -> (i mod c, i / c) = (j mod c, j / c) -> i = j.
Proof.
  intros Hc [= Hm Hd].
  rewrite (Nat.div_mod_eq i c), (Nat.div_mod_eq j c). rewrite Hm, Hd. reflexivity.
Qed.

(** Later positions leave a cell alone. *)
Lemma deinterleave_other c xs i chans ch fr :
  (forall j, i <= j < i + length xs -> (j mod c, j / c) <> (ch, fr)) ->
  readSample (deinterleave c i xs chans) ch fr = readSample chans ch fr.
Proof.
  revert i chans. induction xs as [|x xs IH]; intros i chans Hfree; cbn.
  - reflexivity.
  - rewrite IH.
    + apply readSample_writeSample_ne. apply Hfree. cbn. lia.
    + intros j Hj. apply Hfree. cbn. lia.
Qed.

Lemma deinterleave_read c xs i chans k x :
  0 < c -> xs !! k = Some x ->
  is_Some (readSample chans ((i + k) mod c) ((i + k) / c)) ->
  readSample (deinterleave c i xs chans) ((i + k) mod c) ((i + k) / c)
  = Some (normalizeSample x).
Proof.
  intros Hc. revert i chans k.
  induction xs as [|x0 xs IH]; intros i chans k Hk Hcell; [discriminate|].
  destruct k as [|k]; cbn [deinterleave].
  - injection Hk as ->. rewrite Nat.add_0_r in *.
    rewrite deinterleave_other.
    + apply readSample_writeSample_eq. exact Hcell.
    + intros j Hj Heq. apply position_cell in Heq; [lia | exact Hc].
  - replace (i + S k) with (S i + k) in * by lia.
    apply IH; [exact Hk|].
    destruct (decide ((i mod c, i / c) = ((S i + k) mod c, (S i + k) / c)))
      as [Heq|Hne].
    + apply position_cell in Heq; [lia | exact Hc].
    + rewrite readSample_writeSample_ne by exact Hne. exact Hcell.
Qed.

Lemma readSample_createBuffer ctx c f sr ch fr :
  ch < c -> fr < f ->
  readSample (bufChannelData (createBuffer ctx c f sr)) ch fr = Some PrimFloat.zero.
Proof.
  intros Hch Hfr. unfold readSample, createBuffer. cbn.
  rewrite (lookup_replicate_2 c _ ch Hch).
  apply lookup_replicate_2. exact Hfr.
Qed.

Lemma decodeAudioData_shape data ctx sr c :
  length <$> bufChannelData (decodeAudioData data ctx sr c)
  = replicate c (length (int16View data) / c).
Proof.
  unfold decodeAudioData. cbn. rewrite deinterleave_shape.
  rewrite fmap_replicate, length_replicate. reflexivity.
Qed.

(** C2: for every even-length byte sequence b and every channel count
    c >= 1 that divides len(b)/2, the decoded buffer has c channels of
    exactly len(b)/(2*c) frames each, and interleaved sample i (bytes 2i and
    2i+1 of b) is found, normalized, in channel i mod c at frame
    floor(i/c). *)
Theorem decodeAudioData_frames (b : list byte) (ctx : AudioContext)
    (sr : Z) (c : nat) :
  Nat.Even (length b) -> 1 <= c -> Nat.divide c (length b / 2) ->
  let buf := decodeAudioData b ctx sr c in
  bufLength buf = length b / (2 * c)
  /\ numberOfChannels buf = c
  /\ (forall ch samples, bufChannelData buf !! ch = Some samples ->
        length samples = length b / (2 * c))
  /\ (forall i lo hi,
        b !! (2 * i) = Some lo -> b !! (2 * i + 1) = Some hi ->
        readSample (bufChannelData buf) (i mod c) (i / c)
        = Some (normalizeSample (int16_of_le lo hi))).
Proof.
  intros _ Hc [f Hf] buf.
  assert (Hframes : length (int16View b) / c = length b / (2 * c)).
  { rewrite int16View_length. apply Nat.Div0.div_div. }
  assert (Hshape := decodeAudioData_shape b ctx sr c). fold buf in Hshape.
  rewrite Hframes in Hshape.
  split; [exact Hframes|]. split; [|split].
  - unfold numberOfChannels.
    rewrite <- (length_fmap length), Hshape. apply length_replicate.
  - intros ch samples Hch.
    assert (H : (length <$> bufChannelData buf) !! ch = Some (length samples))
      by (rewrite list_lookup_fmap, Hch; reflexivity).
    rewrite Hshape in H. apply lookup_replicate_1 in H. apply H.
  - intros i lo hi Hlo Hhi.
    assert (Hi : i < length b / 2).
    { apply lookup_lt_Some in Hhi. apply Nat.div_le_lower_bound; lia. }
    assert (Hx := int16View_lookup b i lo hi Hlo Hhi).
    change (bufChannelData buf)
      with (deinterleave c 0 (int16View b)
              (bufChannelData (createBuffer ctx c (length (int16View b) / c) sr))).
    apply (deinterleave_read c (int16View b) 0 _ i); [lia | exact Hx |].
    rewrite Nat.add_0_l. rewrite readSample_createBuffer; [eauto | |].
    + apply Nat.mod_upper_bound. lia.
    + rewrite int16View_length, Hf. rewrite Hf in Hi.
      rewrite Nat.div_mul by lia. apply Nat.Div0.div_lt_upper_bound. lia.
Qed.

Lemma decodeAudioData_frames_witness :
  Nat.Even (length twoSamples) /\ 1 <= 2
  /\ Nat.divide 2 (length twoSamples / 2)
  /\ bufLength (decodeAudioData twoSamples {| ctxSampleRate := 24000 |} 24000 2)
     = 1.
Proof.
  split; [exists 2; reflexivity|]. split; [lia|].
  split; [exists 1; reflexivity|].
  apply (decodeAudioData_frames twoSamples {| ctxSampleRate := 24000 |} 24000 2);
    [exists 2; reflexivity | lia | exists 1; reflexivity].
Defined.

End PcmDecoder.

(* ================================================================== *)
(** * PCM decoder: sample values and the empty input *)
(* ================================================================== *)

Section Samples.
Import AudioUtils.

Lemma forall_from_spec (P : Z -> bool) (n : nat) (lo : Z) :
  forall_from P lo n = true ->
  forall x, lo <= x < lo + Z.of_nat n -> P x = true.
Proof.
  revert lo. induction n as [|n IH]; intros lo Hall x Hx.
  - lia.
  - cbn [forall_from] in Hall. apply andb_prop in Hall as [Hlo Hrest].
    destruct (Z.eq_dec x lo) as [->|Hne]; [exact Hlo|].
    apply (IH (lo + 1)); [exact Hrest | lia].
Qed.

Lemma every_sample_in_range :
  forall_from sampleInRange (-32768) (Z.to_nat 65536) = true.
Proof. vm_compute. reflexivity. Qed.

Lemma int16_of_le_range lo hi : -32768 <= int16_of_le lo hi <= 32767.
Proof.
  unfold int16_of_le.
  pose proof (le_combine_bound [lo; hi]) as Hb.
  change (2 ^ (8 * Z.of_nat (length [lo; hi]))) with 65536 in Hb.
  cbv zeta. destruct (le_combine [lo; hi] <? 32768) eqn:E.
  - apply Z.ltb_lt in E. lia.
  - apply Z.ltb_ge in E. lia.
Qed.

Lemma sampleInRange_int16 (x : Z) :
  -32768 <= x <= 32767 -> sampleInRange x = true.
Proof.
  intros Hx. apply (forall_from_spec _ _ _ every_sample_in_range).
  rewrite Z2Nat.id; lia.
Qed.

(** Whatever the two bytes, the sample the decoder writes lies in
    [-1.0, 1.0). *)
Corollary decoded_sample_in_range (lo hi : byte) :
  PrimFloat.leb (-1)%float (normalizeSample (int16_of_le lo hi)) = true
  /\ PrimFloat.ltb (normalizeSample (int16_of_le lo hi)) 1%float = true.
Proof.
  pose proof (sampleInRange_int16 _ (int16_of_le_range lo hi)) as H.
  unfold sampleInRange in H.
  destruct (float_to_Q _); [|discriminate].
  apply andb_prop in H as [H Hlt]. apply andb_prop in H as [_ Hle].
  split; assumption.
Qed.

(** C3: for every raw 16-bit signed integer x in [-32768, 32767], the
    normalized sample is the double x / 32768.0, whose exact value is the
    rational x/32768; it lies in [-1.0, 1.0); -32768 maps to exactly -1.0 and
    0 maps to 0.0. *)
Theorem normalizeSample_range (x : Z) :
  -32768 <= x <= 32767 ->
  normalizeSample x = PrimFloat.div (float_of_Z x) 32768%float
  /\ (exists q, float_to_Q (normalizeSample x) = Some q /\ (q == x # 32768)%Q)
  /\ PrimFloat.leb (-1)%float (normalizeSample x) = true
  /\ PrimFloat.ltb (normalizeSample x) 1%float = true
  /\ normalizeSample (-32768) = (-1)%float
  /\ normalizeSample 0 = 0%float.
Proof.
  intros Hx. pose proof (sampleInRange_int16 x Hx) as H.
  unfold sampleInRange in H.
  destruct (float_to_Q (normalizeSample x)) as [q|]; [|discriminate].
  apply andb_prop in H as [H Hlt]. apply andb_prop in H as [Hq Hle].
  repeat split; try assumption; try reflexivity.
  exists q. split; [reflexivity|]. apply Qeq_bool_eq. exact Hq.
Qed.

Lemma normalizeSample_range_witness :
  -32768 <= 32767 <= 32767
  /\ PrimFloat.ltb (normalizeSample 32767) 1%float = true.
Proof.
  split; [lia|]. apply (normalizeSample_range 32767). lia.
Defined.





End Samples.

(* ================================================================== *)
(** * The service and the generation workflow *)
(* ================================================================== *)

Section Service.
Import AudioUtils GeminiService Fixtures.
Local Open Scope string_scope.

Lemma truthy_opt_false (o : option string) :
  truthy_opt o = false <-> o = None \/ o = Some ""%string.
Proof.
  destruct o as [[|a t]|]; cbn; split; intros H; try reflexivity;
    try discriminate; auto; destruct H as [H|H]; discriminate.
Qed.

(** What [generateSpeech] does once the response has arrived. *)
Lemma generateSpeech_unfold ai pf text voice :
  generateSpeech ai pf text voice =
  match ai (speechRequest text (default defaultVoice voice)) with
  | inl f => inl (RemoteRejection f)
  | inr response =>
      if truthy_opt (base64AudioOf response) then
        if audioContextAvailable pf then
          match decode pf (default ""%string (base64AudioOf response)) with
          | Some bytes =>
              if allocatesBuffer pf 1%nat
                   (length (int16View bytes) / 1)%nat 24000
              then
                inr {| buffer := decodeAudioData bytes
                                   {| ctxSampleRate := 24000 |} 24000 1;
                       rawPcm := bytes |}
              else inl PlatformError
          | None => inl InvalidCharacterError
          end
        else inl PlatformError
      else inl (Error noAudioMessage)
  end.
Proof.
  unfold generateSpeech, generateContent, newAudioContext,
    awaitDecodeAudioData.
  destruct (ai _) as [f|response]; cbn; [reflexivity|].
  destruct (base64AudioOf response) as [b64|]; cbn; [|reflexivity].
  destruct (truthy b64); [|reflexivity].
  destruct (audioContextAvailable pf); cbn; [|reflexivity].
  destruct (decode pf b64) as [bytes|]; cbn; [|reflexivity].
  destruct (allocatesBuffer pf _ _ _); reflexivity.
Qed.

(** C10: when the model's response to the script request carries no text
    (absent or empty), [generateNewsScript] resolves, with the fixed
    fallback sentence, instead of throwing. *)
Theorem generateNewsScript_fallback (ai : GenAI) (rawText : string)
    (response : Response) :
  ai (scriptRequest rawText) = inr response ->
  text response = None \/ text response = Some ""%string ->
  generateNewsScript ai rawText = inr scriptFallback
  /\ scriptFallback = "क्षमस्व, बातमी तयार करण्यात अडथळा आला."%string.
Proof.
  intros Hai Htext. split; [|reflexivity].
  unfold generateNewsScript, generateContent. rewrite Hai. cbn.
  destruct Htext as [-> | ->]; reflexivity.
Qed.


Lemma generateNewsScript_fallback_witness :
  blankAI (scriptRequest "पाऊस") = inr {| text := None; candidates := None |}
  /\ generateNewsScript blankAI "पाऊस" = inr scriptFallback.
Proof.
  split; [reflexivity|].
  apply (generateNewsScript_fallback blankAI "पाऊस"
           {| text := None; candidates := None |});
    [reflexivity | left; reflexivity].
Defined.

Lemma generateSpeech_no_audio_iff ai pf text voice :
  generateSpeech ai pf text voice = inl (Error noAudioMessage)
  <-> exists response,
        ai (speechRequest text (default defaultVoice voice)) = inr response
        /\ (base64AudioOf response = None
            \/ base64AudioOf response = Some ""%string).
Proof.
  rewrite generateSpeech_unfold.
  destruct (ai _) as [f|response]; split.
  - discriminate.
  - intros (r & H & _). discriminate.
  - intros H. exists response. split; [reflexivity|].
    apply truthy_opt_false.
    destruct (truthy_opt (base64AudioOf response)); [|reflexivity].
    destruct (audioContextAvailable pf); [|discriminate].
    destruct (decode pf _); [|discriminate].
    destruct (allocatesBuffer pf _ _ _); discriminate.
  - intros (r & [= <-] & Hlack). apply truthy_opt_false in Hlack.
    rewrite Hlack. reflexivity.
Qed.

End Service.

Section Workflow.
Import AudioUtils GeminiService App Fixtures.
Local Open Scope string_scope.

Lemma handleGenerate_script_failure ai pf s e :
  truthy (trim pf (inputText s)) = true ->
  generateNewsScript ai (inputText s) = inl e ->
  handleGenerate ai pf s = catchBlock e (afterScriptStart s).
Proof.
  intros Hin He. unfold handleGenerate. rewrite Hin. cbn. rewrite He.
  reflexivity.
Qed.

Lemma handleGenerate_speech_failure ai pf s script e :
  truthy (trim pf (inputText s)) = true ->
  generateNewsScript ai (inputText s) = inr script ->
  generateSpeech ai pf script (Some (selectedVoice s)) = inl e ->
  handleGenerate ai pf s = catchBlock e (afterScript script s).
Proof.
  intros Hin Hs He. unfold handleGenerate. rewrite Hin. cbn. rewrite Hs.
  cbn. rewrite He. reflexivity.
Qed.

Lemma handleGenerate_speech_success ai pf s script result :
  truthy (trim pf (inputText s)) = true ->
  generateNewsScript ai (inputText s) = inr script ->
  generateSpeech ai pf script (Some (selectedVoice s)) = inr result ->
  audioBlob (handleGenerate ai pf s) = Some (pcmToWav (rawPcm result) 24000).
Proof.
  intros Hin Hs Hr. unfold handleGenerate. rewrite Hin. cbn. rewrite Hs.
  cbn. rewrite Hr. unfold playAudio.
  destruct (match audioContextRef _ with Some _ => _ | None => _ end);
    reflexivity.
Qed.



Lemma generateSpeech_rejected ai pf text voice f :
  ai (speechRequest text (default defaultVoice voice)) = inl f ->
  generateSpeech ai pf text voice = inl (RemoteRejection f).
Proof. intros H. rewrite generateSpeech_unfold, H. reflexivity. Qed.

Lemma generateSpeech_result ai pf text voice result :
  generateSpeech ai pf text voice = inr result ->
  buffer result
  = decodeAudioData (rawPcm result) {| ctxSampleRate := 24000 |} 24000 1.
Proof.
  rewrite generateSpeech_unfold.
  destruct (ai _) as [f|response]; [discriminate|].
  destruct (truthy_opt _); [|discriminate].
  destruct (audioContextAvailable pf); [|discriminate].
  destruct (decode pf _); [|discriminate].
  destruct (allocatesBuffer pf _ _ _); [|discriminate].
  intros [= <-]. reflexivity.
Qed.

(** C7: [generateSpeech] throws the error "No audio data received ..."
    exactly when the remote call answered and the response carries no
    base64 audio payload (none along the optional chain, or an empty one); a
    rejected remote call surfaces as its own rejection, never as this error;
    and in the workflow this error ends the request: no blob is stored and
    no playback starts. *)
Theorem generateSpeech_missing_payload (ai : GenAI) (pf : Platform)
    (text : string) (voice : option string) :
  let req := speechRequest text (default defaultVoice voice) in
  (generateSpeech ai pf text voice = inl (Error noAudioMessage)
   <-> exists response,
         ai req = inr response
         /\ (base64AudioOf response = None
             \/ base64AudioOf response = Some ""%string))
  /\ String.prefix "No audio data received"%string noAudioMessage = true
  /\ (forall f, ai req = inl f ->
        generateSpeech ai pf text voice = inl (RemoteRejection f))
  /\ (forall s,
        truthy (trim pf (inputText s)) = true ->
        generateNewsScript ai (inputText s) = inr text ->
        voice = Some (selectedVoice s) ->
        generateSpeech ai pf text voice = inl (Error noAudioMessage) ->
        let s' := handleGenerate ai pf s in
        status s' = ERROR /\ audioBlob s' = None
        /\ isPlaying s' = isPlaying s /\ sourceNodeRef s' = sourceNodeRef s).
Proof.
  intros req. split; [apply generateSpeech_no_audio_iff|].
  split; [reflexivity|]. split; [apply generateSpeech_rejected|].
  intros s Hin Hscript -> Hspeech s'. unfold s'.
  rewrite (handleGenerate_speech_failure ai pf s text _ Hin Hscript Hspeech).
  repeat split.
Qed.

(** C8: in every generation that reaches the speech result, the buffer
    is decoded from the raw PCM payload at 24000 Hz with 1 channel, and the
    container stored for download wraps the same payload with the same
    sample rate and channel count in its header. *)
Theorem generation_rates_agree (ai : GenAI) (pf : Platform) (s : AppState)
    (script : string) (result : SpeechResult) :
  truthy (trim pf (inputText s)) = true ->
  generateNewsScript ai (inputText s) = inr script ->
  generateSpeech ai pf script (Some (selectedVoice s)) = inr result ->
  exists wav,
    audioBlob (handleGenerate ai pf s) = Some wav
    /\ wavData wav = rawPcm result
    /\ buffer result
       = decodeAudioData (rawPcm result) {| ctxSampleRate := 24000 |} 24000 1
    /\ bufSampleRate (buffer result) = 24000
    /\ wavSampleRate wav = bufSampleRate (buffer result)
    /\ numberOfChannels (buffer result) = 1%nat
    /\ wavChannels wav = Z.of_nat (numberOfChannels (buffer result)).
Proof.
  intros Hin Hscript Hspeech.
  exists (pcmToWav (rawPcm result) 24000).
  pose proof (generateSpeech_result _ _ _ _ _ Hspeech) as Hbuf.
  assert (Hch : numberOfChannels (buffer result) = 1%nat).
  { unfold numberOfChannels. rewrite Hbuf.
    rewrite <- (length_fmap length), decodeAudioData_shape.
    apply length_replicate. }
  split; [exact (handleGenerate_speech_success _ _ _ _ _ Hin Hscript Hspeech)|].
  split; [apply wavData_pcmToWav|]. split; [exact Hbuf|].
  split; [rewrite Hbuf; reflexivity|].
  split; [rewrite Hbuf, wavSampleRate_pcmToWav; reflexivity|].
  split; [exact Hch|].
  rewrite Hch. apply wavChannels_pcmToWav.
Qed.


Lemma generation_rates_agree_witness :
  truthy (trim fakePlatform (inputText (typed "पाऊस"))) = true
  /\ exists wav,
       audioBlob (handleGenerate cannedAI fakePlatform (typed "पाऊस")) = Some wav
       /\ wavSampleRate wav = 24000 /\ wavChannels wav = 1.
Proof.
  split; [reflexivity|].
  destruct (generation_rates_agree cannedAI fakePlatform (typed "पाऊस")
              "नमस्कार मंडळी."
              {| buffer := decodeAudioData twoSamples
                             {| ctxSampleRate := 24000 |} 24000 1;
                 rawPcm := twoSamples |}
              eq_refl eq_refl eq_refl)
    as (wav & Hblob & _ & _ & Hrate & Hwav & Hch & Hwch).
  exists wav. rewrite Hwav, Hrate, Hwch, Hch. repeat split. exact Hblob.
Defined.


End Workflow.

(* ================================================================== *)
(** * More on the service *)
(* ================================================================== *)

Section ServiceOutcomes.
Import AudioUtils GeminiService Fixtures.
Local Open Scope string_scope.

(** X1: [generateNewsScript] passes a rejection on, returns a non-empty model
    text unchanged, and never resolves with an empty script. *)
Theorem generateNewsScript_outcomes (ai : GenAI) (rawText : string) :
  (forall f, ai (scriptRequest rawText) = inl f ->
     generateNewsScript ai rawText = inl (RemoteRejection f))
  /\ (forall response t,
        ai (scriptRequest rawText) = inr response ->
        text response = Some t -> truthy t = true ->
        generateNewsScript ai rawText = inr t)
  /\ (forall script,
        generateNewsScript ai rawText = inr script -> truthy script = true).
Proof.
  unfold generateNewsScript, generateContent.
  destruct (ai (scriptRequest rawText)) as [f|response]; cbn.
  - repeat split; intros; congruence.
  - split; [intros; discriminate|]. split.
    + intros r t [= <-] -> Ht. rewrite Ht. reflexivity.
    + intros script [= <-].
      destruct (text response) as [t|]; [|reflexivity].
      destruct (truthy t) eqn:Ht; [exact Ht | reflexivity].
Qed.

(** X2: [generateSpeech] resolves exactly when the response carries a
    non-empty payload, an audio context can be created, the payload is
    base64 and the platform grants the buffer for its samples; the result
    holds the decoded bytes and the buffer decoded from them at 24000 Hz,
    mono. *)
Theorem generateSpeech_resolves_iff (ai : GenAI) (pf : Platform)
    (text : string) (voice : option string) (result : SpeechResult) :
  generateSpeech ai pf text voice = inr result
  <-> exists response base64Audio bytes,
        ai (speechRequest text (default defaultVoice voice)) = inr response
        /\ base64AudioOf response = Some base64Audio
        /\ truthy base64Audio = true
        /\ audioContextAvailable pf = true
        /\ decode pf base64Audio = Some bytes
        /\ awaitDecodeAudioData (allocatesBuffer pf) bytes
             {| ctxSampleRate := 24000 |} 24000 1
           = inr (buffer result)
        /\ rawPcm result = bytes.
Proof.
  rewrite generateSpeech_unfold. unfold awaitDecodeAudioData.
  destruct (ai _) as [f|response]; split.
  - discriminate.
  - intros (r & b & bs & H & _). discriminate.
  - destruct (base64AudioOf response) as [b64|] eqn:Hb; cbn; [|discriminate].
    destruct (truthy b64) eqn:Ht; [|discriminate].
    destruct (audioContextAvailable pf) eqn:Hctx; [|discriminate].
    destruct (decode pf b64) as [bs|] eqn:Hd; [|discriminate].
    destruct (allocatesBuffer pf _ _ _) eqn:Ha; [|discriminate].
    intros [= <-]. exists response, b64, bs. cbn [buffer rawPcm].
    rewrite Ha. repeat split; assumption.
  - intros (r & b64 & bs & [= <-] & Hb & Ht & Hctx & Hd & Ha & Hraw).
    rewrite Hb. cbn. rewrite Ht, Hctx, Hd.
    destruct (allocatesBuffer pf _ _ _); [|discriminate Ha].
    injection Ha as Ha. destruct result as [buf raw]. cbn in *.
    subst. reflexivity.
Qed.

End ServiceOutcomes.

(* ================================================================== *)
(** * More on the generation workflow and playback *)
(* ================================================================== *)

Section Runs2.
Import AudioUtils GeminiService App Fixtures.
Local Open Scope string_scope.

(** The state [handleGenerate] stores the container in before it plays. *)
Lemma handleGenerate_outcome ai pf s :
  truthy (trim pf (inputText s)) = true ->
  handleGenerate ai pf s =
  match generateNewsScript ai (inputText s) with
  | inl e => catchBlock e (afterScriptStart s)
  | inr script =>
      match generateSpeech ai pf script (Some (selectedVoice s)) with
      | inl e => catchBlock e (afterScript script s)
      | inr result =>
          match playAudio pf (buffer result)
                  (setAudioBlob (Some (pcmToWav (rawPcm result) 24000))
                     (afterScript script s)) with
          | (s', None) => s'
          | (s', Some e) => catchBlock e s'
          end
      end
  end.
Proof. intros Hin. unfold handleGenerate. rewrite Hin. reflexivity. Qed.

Lemma playAudio_outcome pf buffer s :
  playAudio pf buffer s =
  match audioContextRef s with
  | None =>
      if audioContextAvailable pf then
        (setStatus PLAYING
           (setIsPlaying true
              (setSourceNodeRef (Some buffer)
                 (setCurrentTime 0
                    (setDuration (AudioUtils.duration buffer)
                       (setAudioContextRef (Some {| ctxSampleRate := 24000 |})
                          (stopAudio s)))))), None)
      else (stopAudio s, Some PlatformError)
  | Some ctx =>
      (setStatus PLAYING
         (setIsPlaying true
            (setSourceNodeRef (Some buffer)
               (setCurrentTime 0
                  (setDuration (AudioUtils.duration buffer)
                     (setAudioContextRef (Some ctx) (stopAudio s)))))), None)
  end.
Proof.
  unfold playAudio, newAudioContext. cbn.
  destruct (audioContextRef s); [reflexivity|].
  destruct (audioContextAvailable pf); reflexivity.
Qed.

(** X3: With a blank input [handleGenerate] sends no request (the outcome is the
    same against every service) and changes nothing but the error message. *)
Theorem handleGenerate_blank_input (ai ai' : GenAI) (pf : Platform)
    (s : AppState) :
  truthy (trim pf (inputText s)) = false ->
  handleGenerate ai pf s = setError (Some emptyInputMessage) s
  /\ handleGenerate ai' pf s = handleGenerate ai pf s
  /\ status (handleGenerate ai pf s) = status s
  /\ generatedScript (handleGenerate ai pf s) = generatedScript s
  /\ audioBlob (handleGenerate ai pf s) = audioBlob s
  /\ isPlaying (handleGenerate ai pf s) = isPlaying s.
Proof.
  intros Hin. unfold handleGenerate. rewrite Hin. repeat split.
Qed.

Lemma handleGenerate_blank_input_witness :
  truthy (trim fakePlatform (inputText (typed ""))) = false
  /\ handleGenerate unreachableAI fakePlatform (typed "")
     = handleGenerate cannedAI fakePlatform (typed "").
Proof.
  split; [reflexivity|].
  apply (handleGenerate_blank_input cannedAI unreachableAI fakePlatform
           (typed "")). reflexivity.
Defined.



(** X5: In a run of [handleGenerate] that no other handler interleaves
    with, whatever container and script the start state holds, the ones the
    run leaves are its own: the container is absent or wraps the payload
    just received, the script is empty or the one just generated. *)
Theorem handleGenerate_no_stale_results (ai : GenAI) (pf : Platform)
    (s : AppState) :
  truthy (trim pf (inputText s)) = true ->
  let s' := handleGenerate ai pf s in
  (audioBlob s' = None
   \/ exists script result,
        generateNewsScript ai (inputText s) = inr script
        /\ generateSpeech ai pf script (Some (selectedVoice s)) = inr result
        /\ generatedScript s' = script
        /\ audioBlob s' = Some (pcmToWav (rawPcm result) 24000))
  /\ (generatedScript s' = ""
      \/ generateNewsScript ai (inputText s) = inr (generatedScript s')).
Proof.
  intros Hin s'. unfold s'. rewrite (handleGenerate_outcome ai pf s Hin).
  destruct (generateNewsScript ai (inputText s)) as [e|script] eqn:Hscript.
  - split; left; reflexivity.
  - destruct (generateSpeech ai pf script _) as [e|result] eqn:Hspeech.
    + split; [left | right]; reflexivity.
    + rewrite playAudio_outcome.
      cbn [audioContextRef setAudioBlob afterScript afterScriptStart
             setStatus setGeneratedScript setError].
      split.
      * right. exists script, result.
        destruct (audioContextRef s);
          [|destruct (audioContextAvailable pf)];
          repeat split; exact Hspeech.
      * right.
        destruct (audioContextRef s);
          [|destruct (audioContextAvailable pf)]; reflexivity.
Qed.

Lemma handleGenerate_no_stale_results_witness :
  truthy (trim fakePlatform
            (inputText (handleGenerate cannedAI fakePlatform (typed "पाऊस"))))
  = true
  /\ audioBlob (handleGenerate unreachableAI fakePlatform
                  (handleGenerate cannedAI fakePlatform (typed "पाऊस")))
     = None.
Proof.
  split; [reflexivity|].
  destruct (handleGenerate_no_stale_results unreachableAI fakePlatform
              (handleGenerate cannedAI fakePlatform (typed "पाऊस")) eq_refl)
    as [[H | (script & result & H & _)] _]; [exact H | discriminate H].
Defined.

(** X6: A run of [handleGenerate] consults the service at most twice: for the
    script of the input text and then, only if that succeeded, for the
    speech of that script in the selected voice.  Two services that agree
    on these two requests give the same outcome. *)
Theorem handleGenerate_two_requests (ai ai' : GenAI) (pf : Platform)
    (s : AppState) :
  ai (scriptRequest (inputText s)) = ai' (scriptRequest (inputText s)) ->
  (forall script,
     generateNewsScript ai (inputText s) = inr script ->
     ai (speechRequest script (selectedVoice s))
     = ai' (speechRequest script (selectedVoice s))) ->
  handleGenerate ai pf s = handleGenerate ai' pf s.
Proof.
  intros Hscript Hspeech.
  assert (Hs : generateNewsScript ai' (inputText s)
               = generateNewsScript ai (inputText s)).
  { unfold generateNewsScript, generateContent. rewrite Hscript. reflexivity. }
  unfold handleGenerate. destruct (negb _); [reflexivity|]. cbn zeta.
  rewrite Hs.
  destruct (generateNewsScript ai (inputText s)) as [e|script] eqn:E;
    [reflexivity|].
  cbn [selectedVoice setStatus setGeneratedScript setAudioBlob setError].
  assert (Hsp : generateSpeech ai' pf script (Some (selectedVoice s))
                = generateSpeech ai pf script (Some (selectedVoice s))).
  { rewrite !generateSpeech_unfold.
    change (default defaultVoice (Some (selectedVoice s)))
      with (selectedVoice s).
    rewrite (Hspeech script eq_refl). reflexivity. }
  rewrite Hsp. reflexivity.
Qed.

Lemma handleGenerate_two_requests_witness :
  unreachableAI (scriptRequest (inputText (typed "पाऊस")))
  = (fun req => if String.eqb (model req) "gemini-3-flash-preview"
                then unreachableAI req else cannedAI req)
      (scriptRequest (inputText (typed "पाऊस")))
  /\ handleGenerate unreachableAI fakePlatform (typed "पाऊस")
     = handleGenerate
         (fun req => if String.eqb (model req) "gemini-3-flash-preview"
                     then unreachableAI req else cannedAI req)
         fakePlatform (typed "पाऊस").
Proof.
  split; [reflexivity|].
  apply (handleGenerate_two_requests unreachableAI
           (fun req => if String.eqb (model req) "gemini-3-flash-preview"
                       then unreachableAI req else cannedAI req)
           fakePlatform (typed "पाऊस")); [reflexivity|].
  intros script H. discriminate H.
Defined.

(** X7: [playAudio] never replaces an audio context: one that exists is
    kept, whether or not playback starts, and one is created, at 24000 Hz,
    only when there was none. *)
Theorem playAudio_keeps_context (pf : Platform) (buffer : AudioBuffer)
    (s : AppState) :
  (forall ctx,
     audioContextRef s = Some ctx ->
     audioContextRef (fst (playAudio pf buffer s)) = Some ctx)
  /\ (audioContextRef s = None ->
      (snd (playAudio pf buffer s) = None
       /\ audioContextRef (fst (playAudio pf buffer s))
          = Some {| ctxSampleRate := 24000 |})
      \/ (snd (playAudio pf buffer s) = Some PlatformError
          /\ audioContextRef (fst (playAudio pf buffer s)) = None)).
Proof.
  rewrite playAudio_outcome. split.
  - intros ctx ->. reflexivity.
  - intros Hc. rewrite Hc. destruct (audioContextAvailable pf); cbn [fst snd].
    + left. split; reflexivity.
    + right. split; [reflexivity | exact Hc].
Qed.

(** X8: When the played clip ends, the page is idle again with the progress at
    the clip's duration and the results still in place.  Stopping alone
    does not do that: the status stays PLAYING, and the controls stay
    disabled, until the source reports that it has ended. *)
Theorem playback_ends_idle (pf : Platform) (buffer : AudioBuffer)
    (s s1 : AppState) :
  playAudio pf buffer s = (s1, None) ->
  (status (onEnded buffer s1) = IDLE
   /\ isPlaying (onEnded buffer s1) = false
   /\ busy (onEnded buffer s1) = false
   /\ currentTime (onEnded buffer s1) = App.duration (onEnded buffer s1)
   /\ audioBlob (onEnded buffer s1) = audioBlob s
   /\ generatedScript (onEnded buffer s1) = generatedScript s)
  /\ (isPlaying (stopAudio s1) = false
      /\ status (stopAudio s1) = PLAYING
      /\ busy (stopAudio s1) = true
      /\ busy (onEnded buffer (stopAudio s1)) = false).
Proof.
  rewrite playAudio_outcome.
  destruct (audioContextRef s); [|destruct (audioContextAvailable pf)];
    intros [= <-]; repeat split.
Qed.

Lemma playback_ends_idle_witness :
  exists s1,
    playAudio fakePlatform
      (decodeAudioData twoSamples {| ctxSampleRate := 24000 |} 24000 1)
      initialState = (s1, None)
    /\ busy (stopAudio s1) = true.
Proof.
  eexists. split; [reflexivity|].
  apply (playback_ends_idle fakePlatform
           (decodeAudioData twoSamples {| ctxSampleRate := 24000 |} 24000 1)
           initialState _ eq_refl).
Defined.

(** X9: [handleReset] returns the page to its initial state, keeping only the
    selected voice and the audio context; a second reset changes nothing. *)
Theorem handleReset_initial (s : AppState) :
  handleReset s
  = setAudioContextRef (audioContextRef s)
      (setSelectedVoice (selectedVoice s) initialState)
  /\ handleReset (handleReset s) = handleReset s.
Proof. split; reflexivity. Qed.

End Runs2.

(* ================================================================== *)
(** * Download and share *)
(* ================================================================== *)

Section SharingFacts.
Import AudioUtils GeminiService App Sharing Fixtures Browsers.
Local Open Scope string_scope.

(** Case analysis on everything [handleShare] asks the browser. *)
Ltac share_cases nav s :=
  unfold handleShare, tryShare;
  destruct (truthy (generatedScript s)) eqn:Hscript; cbn [negb];
  destruct (audioBlob s) as [blob|] eqn:Hblob;
  destruct (canShare nav) as [can|] eqn:Hcan;
  try destruct (can _) eqn:Hfiles;
  destruct (share nav) as [sh|] eqn:Hshare;
  repeat match goal with
         | |- context [if sh ?d then _ else _] =>
             let H := fresh "Hsh" in destruct (sh d) eqn:H
         end;
  cbn [fst app].

(** X10: [handleShare] does nothing without a generated script, and always does
    something with one: it calls [navigator.share] or opens the WhatsApp
    link. *)
Theorem handleShare_acts_iff_script (nav : Navigator) (now : Z)
    (s : AppState) :
  (handleShare nav now s = [] <-> truthy (generatedScript s) = false)
  /\ (truthy (generatedScript s) = true ->
      existsb (fun e => isShareCall e || isWindowOpen e)
        (handleShare nav now s) = true).
Proof.
  share_cases nav s; split; try (split; intros; congruence);
    try (intros; congruence); try reflexivity;
    split; intros H; discriminate H.
Qed.

(** X11: The WhatsApp link is opened exactly when there is a script and the
    browser has no [navigator.share]; then it is the last effect, it
    carries the encoded script, and nothing was shared before it. *)
Theorem handleShare_whatsapp_fallback (nav : Navigator) (now : Z)
    (s : AppState) :
  (existsb isWindowOpen (handleShare nav now s) = true
   <-> truthy (generatedScript s) = true /\ share nav = None)
  /\ (truthy (generatedScript s) = true -> share nav = None ->
      last (handleShare nav now s)
      = Some (WindowOpen
                ("https://wa.me/?text="
                 ++ encodeURIComponent nav (generatedScript s)) "_blank")
      /\ existsb isShareCall (handleShare nav now s) = false).
Proof.
  share_cases nav s;
    (split;
     [ split;
       [ intros H; cbn in H; try discriminate H; split; reflexivity
       | intros [H1 H2]; try discriminate H1; try discriminate H2;
         reflexivity ]
     | intros H1 H2; try discriminate H1; try discriminate H2;
       split; reflexivity ]).
Qed.

(** X12: A call of [navigator.share] that resolves is the last thing
    [handleShare] does: a script is never shared twice. *)
Theorem handleShare_stops_after_success (nav : Navigator) (now : Z)
    (s : AppState) (resolves : ShareData -> bool) (i : nat)
    (d : ShareData) :
  share nav = Some resolves ->
  handleShare nav now s !! i = Some (ShareCall d) ->
  resolves d = true ->
  S i = length (handleShare nav now s).
Proof.
  intros Hsh. revert i. unfold handleShare.
  generalize (wavFileName now). intros name.
  share_cases nav s; try discriminate Hsh; injection Hsh as <-;
    intros i Hi Hd;
    repeat (destruct i as [|i]; cbn in Hi; try discriminate Hi);
    try reflexivity; injection Hi as <-;
    cbn [shareTitle shareText] in *; rewrite Hd in *; discriminate.
Qed.

Lemma handleShare_stops_after_success_witness :
  share textNavigator = Some (fun _ => true)
  /\ 1%nat = length (handleShare textNavigator 0 scripted).
Proof.
  split; [reflexivity|].
  apply (handleShare_stops_after_success textNavigator 0 scripted
           (fun _ => true) 0
           {| shareTitle := Some "Waartaa.in News";
              shareText := Some "नमस्कार मंडळी.";
              shareFiles := [] |});
    reflexivity.
Defined.

(** X13: Whatever [handleShare] hands to [navigator.share] is the current
    script under the fixed title, and a shared file is the stored
    container, typed audio/wav and named after the time of the call. *)
Theorem handleShare_shares_current (nav : Navigator) (now : Z)
    (s : AppState) (d : ShareData) :
  In (ShareCall d) (handleShare nav now s) ->
  shareTitle d = Some "Waartaa.in News"
  /\ shareText d = Some (generatedScript s)
  /\ forall f, In f (shareFiles d) ->
       audioBlob s = Some (fileBits f)
       /\ fileType f = "audio/wav"
       /\ fileName f = wavFileName now.
Proof.
  share_cases nav s; cbn [In]; intros H;
    repeat match type of H with
           | _ \/ _ => destruct H as [H|H]
           | False => destruct H
           | ShareCall _ = ShareCall _ => injection H as <-
           | _ = _ => discriminate H
           end;
    (split; [reflexivity|]; split; [reflexivity|]);
    cbn [shareFiles In]; intros f Hf;
    repeat match type of Hf with
           | _ \/ _ => destruct Hf as [Hf|Hf]
           | False => destruct Hf
           end; subst f; repeat split.
Qed.

Lemma handleShare_shares_current_witness :
  handleShare textNavigator 0 scripted
  = [ ShareCall {| shareTitle := Some "Waartaa.in News";
                   shareText := Some "नमस्कार मंडळी.";
                   shareFiles := [] |} ]
  /\ shareText {| shareTitle := Some "Waartaa.in News";
                  shareText := Some "नमस्कार मंडळी.";
                  shareFiles := [] |}
     = Some (generatedScript scripted).
Proof.
  split; [reflexivity|].
  apply (handleShare_shares_current textNavigator 0 scripted).
  change (handleShare textNavigator 0 scripted)
    with [ ShareCall {| shareTitle := Some "Waartaa.in News";
                        shareText := Some "नमस्कार मंडळी.";
                        shareFiles := [] |} ].
  left. reflexivity.
Defined.

(** X14: When script or speech generation fails in a run of
    [handleGenerate] that no other handler interleaves with, the run leaves
    no container, even if the start state held one: afterwards download
    does nothing and share sends no file. *)
Theorem failed_generation_offers_no_audio (ai : GenAI) (pf : Platform)
    (s : AppState) (e : Exception) (objectURL : Blob -> string)
    (nav : Navigator) (now : Z) :
  truthy (trim pf (inputText s)) = true ->
  generateNewsScript ai (inputText s) = inl e
  \/ (exists script,
        generateNewsScript ai (inputText s) = inr script
        /\ generateSpeech ai pf script (Some (selectedVoice s)) = inl e) ->
  audioBlob (handleGenerate ai pf s) = None
  /\ downloadAudio objectURL now (handleGenerate ai pf s) = []
  /\ forall d, In (ShareCall d) (handleShare nav now (handleGenerate ai pf s)) ->
       shareFiles d = [].
Proof.
  intros Hin Hfail.
  assert (Hblob : audioBlob (handleGenerate ai pf s) = None).
  { destruct Hfail as [Hscript | (script & Hscript & Hspeech)].
    - rewrite (handleGenerate_script_failure ai pf s e Hin Hscript).
      reflexivity.
    - rewrite (handleGenerate_speech_failure ai pf s script e Hin Hscript
                 Hspeech).
      reflexivity. }
  split; [exact Hblob|]. split.
  - unfold downloadAudio. rewrite Hblob. reflexivity.
  - intros d. unfold handleShare, tryShare. rewrite Hblob.
    destruct (truthy (generatedScript _)); cbn [negb In]; [|intros []].
    destruct (share nav) as [sh|]; [destruct (sh _)|];
      cbn [fst app In]; intros H;
      repeat match type of H with
             | _ \/ _ => destruct H as [H|H]
             | False => destruct H
             | ShareCall _ = ShareCall _ => injection H as <-
             | _ = _ => discriminate H
             end; reflexivity.
Qed.

Lemma failed_generation_offers_no_audio_witness :
  truthy (trim fakePlatform
            (inputText (handleGenerate cannedAI fakePlatform (typed "पाऊस"))))
  = true
  /\ audioBlob (handleGenerate cannedAI fakePlatform (typed "पाऊस")) <> None
  /\ downloadAudio (fun _ => "blob:1") 0
       (handleGenerate unreachableAI fakePlatform
          (handleGenerate cannedAI fakePlatform (typed "पाऊस"))) = [].
Proof.
  split; [reflexivity|]. split; [discriminate|].
  apply (failed_generation_offers_no_audio unreachableAI fakePlatform
           (handleGenerate cannedAI fakePlatform (typed "पाऊस"))
           (RemoteRejection {| failureDetail := "fetch failed" |})
           (fun _ => "blob:1") textNavigator 0);
    [reflexivity | left; reflexivity].
Defined.

End SharingFacts.

(* ================================================================== *)
(** * Time display and progress polling *)
(* ================================================================== *)

Section ClockFacts.
Import AudioUtils GeminiService App Clock Fixtures.

Example formatTime_65_5 : formatTime 65.5%float = Some "1:05"%string.
Proof. reflexivity. Qed.

Example formatTime_zero : formatTime 0%float = Some "0:00"%string.
Proof. reflexivity. Qed.

Example formatTime_NaN : formatTime PrimFloat.nan = Some "NaN:NaN"%string.
Proof. reflexivity. Qed.

Example formatTime_negative :
  formatTime (-0.5)%float = Some "-1:-1"%string.
Proof. reflexivity. Qed.

Lemma Qfloor_unique (q : Q) (z : Z) :
  (inject_Z z <= q)%Q -> (q < inject_Z (z + 1))%Q -> Qfloor q = z.
Proof.
  intros Hle Hlt.
  pose proof (Qfloor_le q) as H1. pose proof (Qlt_floor q) as H2.
  assert (Ha : (inject_Z z < inject_Z (Qfloor q + 1))%Q)
    by (eapply Qle_lt_trans; eassumption).
  assert (Hb : (inject_Z (Qfloor q) < inject_Z (z + 1))%Q)
    by (eapply Qle_lt_trans; eassumption).
  rewrite <- Zlt_Qlt in Ha, Hb. lia.
Qed.

(** The whole seconds of a non-negative time, modulo a minute. *)
Lemma floor_remainder_60 (q : Q) :
  (0 <= q)%Q ->
  Qfloor (q - 60 * inject_Z (Qtrunc (q / 60))) = Qfloor q mod 60.
Proof.
  intros Hq.
  assert (Hdiv : (0 <= q / 60)%Q).
  { apply Qle_shift_div_l; [reflexivity|]. rewrite Qmult_0_l. exact Hq. }
  unfold Qtrunc. rewrite (proj2 (Qle_bool_iff 0 (q / 60)) Hdiv).
  assert (Hq60 : (q == 60 * (q / 60))%Q) by (field; discriminate).
  revert Hq60. generalize (q / 60)%Q. intros t Hq60.
  set (k := Qfloor t).
  pose proof (Qfloor_le t) as H1.
  pose proof (Qlt_floor t) as H2. fold k in H1, H2.
  assert (Hlo : (60 * inject_Z k <= q)%Q) by lra.
  assert (Hhi : (q < 60 * inject_Z (k + 1))%Q) by lra.
  pose proof (Qfloor_le q) as F1. pose proof (Qlt_floor q) as F2.
  assert (Hk1 : 60 * k <= Qfloor q).
  { rewrite <- (Qfloor_Z (60 * k)). apply Qfloor_resp_le.
    rewrite inject_Z_mult. exact Hlo. }
  assert (Hk2 : Qfloor q < 60 * (k + 1)).
  { rewrite Zlt_Qlt. eapply Qle_lt_trans; [exact F1|].
    rewrite inject_Z_mult. exact Hhi. }
  assert (Hmod : Qfloor q mod 60 = Qfloor q - 60 * k).
  { symmetry. apply (Z.mod_unique_pos _ _ k); lia. }
  rewrite Hmod. apply Qfloor_unique.
  - unfold Z.sub. rewrite inject_Z_plus, inject_Z_opp, inject_Z_mult.
    change (inject_Z 60) with 60%Q. lra.
  - replace (Qfloor q - 60 * k + 1) with (Qfloor q + 1 + - (60 * k)) by lia.
    rewrite inject_Z_plus, inject_Z_opp, inject_Z_mult.
    change (inject_Z 60) with 60%Q. lra.
Qed.

Lemma seconds_padded :
  forall_from padsToTwoDigits 0 60 = true.
Proof. vm_compute. reflexivity. Qed.

(** X15: For every finite, non-negative time that [formatTime] prints, the part
    after the colon has exactly two digits: the whole seconds modulo 60,
    zero-padded. *)
Theorem formatTime_seconds_field (seconds : float) (q : Q) (str : string) :
  float_to_Q seconds = Some q -> (0 <= q)%Q ->
  formatTime seconds = Some str ->
  exists mins,
    toString (Math_floor (valueOf (PrimFloat.div seconds 60%float)))
    = Some mins
    /\ str = (mins ++ ":" ++ twoDigits (Qfloor q mod 60))%string
    /\ 0 <= Qfloor q mod 60 < 60.
Proof.
  intros Hv Hq. unfold formatTime, valueOf at 2. rewrite Hv.
  cbn [remainder]. change (Qeq_bool 60 0) with false. cbv iota.
  change (Math_floor (Finite (q - 60 * inject_Z (Qtrunc (q / 60)))))
    with (JsInt (Qfloor (q - 60 * inject_Z (Qtrunc (q / 60))))).
  rewrite (floor_remainder_60 q Hq).
  assert (Hr : 0 <= Qfloor q mod 60 < 60) by (apply Z.mod_pos_bound; lia).
  pose proof (forall_from_spec _ _ _ seconds_padded _ Hr) as Hpad.
  unfold padsToTwoDigits in Hpad.
  destruct (toString (Math_floor _)) as [mins|]; [|discriminate].
  destruct (toString (JsInt (Qfloor q mod 60))) as [sec|]; [|discriminate].
  apply String.eqb_eq in Hpad. rewrite Hpad.
  intros [= <-]. exists mins. repeat split; apply Hr.
Qed.

Lemma formatTime_seconds_field_witness :
  float_to_Q 125.75%float = Some (8848869580341248 # 70368744177664)%Q
  /\ formatTime 125.75%float = Some "2:05"%string
  /\ exists mins, "2:05"%string
       = (mins ++ ":"
          ++ twoDigits (Qfloor (8848869580341248 # 70368744177664) mod 60))%string.
Proof.
  split; [reflexivity|]. split; [reflexivity|].
  destruct (formatTime_seconds_field 125.75%float
              (8848869580341248 # 70368744177664)%Q "2:05"%string eq_refl
              ltac:(discriminate) eq_refl) as (mins & _ & H & _).
  exists mins. exact H.
Defined.

Lemma every_whole_second_formats :
  forall_from formatsWholeSeconds 0 3600 = true.
Proof. vm_compute. reflexivity. Qed.

(** X16: For every whole number of seconds below one hour, [formatTime] prints
    the minutes, a colon, and the remaining seconds on two digits. *)
Theorem formatTime_whole_seconds (n : Z) :
  0 <= n < 3600 ->
  formatTime (float_of_Z n)
  = Some (NilZero.string_of_int (Z.to_int (n / 60)) ++ ":"
          ++ twoDigits (n mod 60))%string.
Proof.
  intros Hn.
  pose proof (forall_from_spec _ _ _ every_whole_second_formats n Hn) as H.
  unfold formatsWholeSeconds in H.
  destruct (formatTime (float_of_Z n)) as [str|]; [|discriminate].
  apply String.eqb_eq in H. rewrite H. reflexivity.
Qed.

Lemma formatTime_whole_seconds_witness :
  0 <= 75 < 3600 /\ formatTime (float_of_Z 75) = Some "1:15"%string.
Proof.
  split; [lia|]. apply (formatTime_whole_seconds 75). lia.
Defined.

(** X17: While nothing plays, [updateProgress] changes nothing and requests no
    frame.  While a clip plays, it moves the displayed time to the elapsed
    time but never past the clip's duration, and it requests another frame
    exactly as long as the clip has not run out. *)
Theorem updateProgress_bounded (elapsed : Q) (s : AppState) :
  let '(s', again) := updateProgress elapsed s in
  (isPlaying s = false \/ audioContextRef s = None ->
   s' = s /\ again = false)
  /\ (isPlaying s = true -> audioContextRef s <> None ->
      s' = setCurrentTime (currentTime s') s
      /\ (currentTime s' <= App.duration s')%Q
      /\ (currentTime s' <= elapsed)%Q
      /\ (again = true <-> (elapsed < App.duration s)%Q)
      /\ (again = true -> currentTime s' == elapsed)%Q
      /\ (again = false -> currentTime s' == App.duration s)%Q).
Proof.
  unfold updateProgress.
  destruct (audioContextRef s) as [ctx|] eqn:Hctx.
  - destruct (isPlaying s) eqn:Hp.
    + split; [intros [H|H]; discriminate H|]. intros _ _.
      cbn [currentTime App.duration setCurrentTime].
      split; [reflexivity|].
      split; [apply Q.le_min_r|]. split; [apply Q.le_min_l|].
      destruct (Qlt_le_dec elapsed (App.duration s)) as [Hlt|Hge].
      * split; [split; auto|]. split; [|discriminate].
        intros _. apply Q.min_l. apply Qlt_le_weak. exact Hlt.
      * split; [split; [discriminate | intros H; exfalso; lra]|].
        split; [discriminate|]. intros _. apply Q.min_r. exact Hge.
    + split; [auto|]. discriminate.
  - split; [auto|]. intros _ H. congruence.
Qed.

End ClockFacts.

(* ================================================================== *)
(** * The page between events *)
(* ================================================================== *)

Section SessionFacts.
Import AudioUtils GeminiService App Session Fixtures.
Local Open Scope string_scope.

Lemma generateNewsScript_nonempty ai rawText script :
  generateNewsScript ai rawText = inr script -> truthy script = true.
Proof.
  unfold generateNewsScript, generateContent.
  destruct (ai _) as [f|response]; cbn; [discriminate|].
  intros [= <-]. destruct (text response) as [t|]; [|reflexivity].
  destruct (truthy t) eqn:Ht; [exact Ht | reflexivity].
Qed.

Lemma busy_false_status s :
  busy s = false -> status s = IDLE \/ status s = ERROR.
Proof. unfold busy. destruct (status s); cbn; auto; discriminate. Qed.

Lemma settled_initial : settled initialState.
Proof. split; cbn; try discriminate; try reflexivity; auto; congruence. Qed.

Lemma settled_catchBlock e s :
  isPlaying s = false -> audioBlob s = None ->
  knownVoice (selectedVoice s) = true -> settled (catchBlock e s).
Proof.
  intros Hp Hb Hv. split; cbn; try reflexivity; auto; try congruence.
Qed.

(** Every handler keeps the page settled. *)
Lemma settled_step pf s e :
  settled s -> enabled pf s e = true -> settled (step pf e s).
Proof.
  intros [Hgen Hplay Hblob Hpb Herr Hmsg Hvoice] Hen.
  destruct e as [value|voice|ai| | |buffer]; cbn [step enabled] in *.
  - split; assumption.
  - apply andb_prop in Hen as [_ Hk]. split; assumption.
  - unfold generateDisabled in Hen. apply negb_true_iff in Hen.
    apply orb_false_iff in Hen as [Hbusy Hin].
    apply negb_false_iff in Hin.
    assert (Hnp : isPlaying s = false).
    { destruct (isPlaying s) eqn:Hp; [|reflexivity].
      destruct (Hplay eq_refl) as (Hst & _).
      destruct (busy_false_status s Hbusy); congruence. }
    rewrite (handleGenerate_outcome ai pf s Hin).
    destruct (generateNewsScript ai (inputText s)) as [err|script] eqn:Hs.
    + apply settled_catchBlock; cbn; first [assumption | reflexivity].
    + destruct (generateSpeech ai pf script _) as [err|result].
      * apply settled_catchBlock; cbn; first [assumption | reflexivity].
      * pose proof (generateNewsScript_nonempty _ _ _ Hs) as Hscript.
        rewrite playAudio_outcome.
        cbn [audioContextRef setAudioBlob afterScript afterScriptStart
               setStatus setGeneratedScript setError].
        destruct (audioContextRef s) as [ctx|];
          [|destruct (audioContextAvailable pf)];
          split; cbn; try reflexivity; auto; try discriminate;
          try (intros _; repeat split; discriminate).
  - split; cbn; try assumption; try discriminate.
  - split; cbn; try discriminate; try reflexivity; auto; congruence.
  - split; cbn; try assumption; try discriminate; try reflexivity.
Qed.

Lemma reachable_settled pf s : reachable pf s -> settled s.
Proof.
  induction 1 as [|s e _ IH Hen].
  - apply settled_initial.
  - apply (settled_step pf s e IH Hen).
Qed.

Lemma run_reachable pf events s :
  reachable pf s -> reachable pf (run pf events s).
Proof.
  revert s. induction events as [|e events IH]; intros s Hs; cbn.
  - exact Hs.
  - apply IH. destruct (enabled pf s e) eqn:Hen; [|exact Hs].
    apply reachable_step; assumption.
Qed.



(** X21: The only message the page ever shows is the generic failure message:
    the generate button is disabled on a blank input, so the blank-input
    branch of [handleGenerate] is never taken; and a page in the ERROR
    status always shows the message. *)
Theorem reachable_error_message (pf : Platform) (s : AppState) :
  reachable pf s ->
  (error s = None \/ error s = Some genericFailureMessage)
  /\ error s <> Some emptyInputMessage
  /\ (status s = ERROR -> error s = Some genericFailureMessage).
Proof.
  intros Hr. destruct (reachable_settled pf s Hr) as [_ _ _ _ Herr Hmsg _].
  split; [exact Hmsg|]. split; [|exact Herr].
  destruct Hmsg as [-> | ->]; discriminate.
Qed.

Lemma reachable_error_message_witness :
  reachable fakePlatform
    (run fakePlatform [ChangeInput "पाऊस"; Generate unreachableAI] initialState)
  /\ error
       (run fakePlatform [ChangeInput "पाऊस"; Generate unreachableAI]
          initialState)
     <> Some emptyInputMessage.
Proof.
  assert (H : reachable fakePlatform
                (run fakePlatform [ChangeInput "पाऊस"; Generate unreachableAI]
                   initialState))
    by apply run_reachable, reachable_initial.
  split; [exact H|].
  apply (reachable_error_message fakePlatform _ H).
Defined.

(** X22: The selected voice is always one of [MARATHI_VOICES], so every speech
    request names a voice of the list. *)
Theorem reachable_known_voice (pf : Platform) (s : AppState) :
  reachable pf s ->
  exists v, In v MARATHI_VOICES /\ selectedVoice s = id v.
Proof.
  intros Hr. destruct (reachable_settled pf s Hr) as [_ _ _ _ _ _ Hv].
  unfold knownVoice in Hv. apply existsb_exists in Hv as (v & Hin & Heq).
  exists v. split; [exact Hin|]. apply String.eqb_eq. exact Heq.
Qed.

Lemma reachable_known_voice_witness :
  reachable fakePlatform
    (run fakePlatform [SelectVoice "Puck"; SelectVoice "Nobody"] initialState)
  /\ exists v,
       In v MARATHI_VOICES
       /\ selectedVoice
            (run fakePlatform [SelectVoice "Puck"; SelectVoice "Nobody"]
               initialState) = id v.
Proof.
  assert (H : reachable fakePlatform
                (run fakePlatform [SelectVoice "Puck"; SelectVoice "Nobody"]
                   initialState))
    by apply run_reachable, reachable_initial.
  split; [exact H|].
  apply (reachable_known_voice fakePlatform _ H).
Defined.

End SessionFacts.
